(** * Inventory_System.py: the product price management handlers

    A shallow embedding of [src/Inventory_System.py].  The Streamlit page is
    one function, [main], whose branches are the handlers of the menu; each
    branch is embedded here as a function of the widget values it reads and
    of the two structures [main] loads first, [data] (the catalog) and
    [categories].

    - A Python [dict] keeps its keys distinct and iterates in insertion
      order: it is an association list, [d[k] = v] replaces in place or
      appends ([Dict.set]), [d.get(k, default)] is [Dict.get_default].
    - Every record the program stores (lines 289-294 and 317-322) has the
      same four keys, so a product is a record and [details["category"]] is
      a projection; [product_dict] is the same product as the dict that the
      CSV code iterates over.
    - [str.lower], [str.upper], [str.strip], [fuzz.token_set_ratio],
      [json.load], [json.dump] and [csv.writer] belong to Python and to
      rapidfuzz, not to this program: they are parameters, and so is the
      type of the text a file holds, which the program never inspects.
    - [fuzz.token_set_ratio] returns a float; a finite float is a rational,
      so scores are in [Q], and [int(score)] is truncation.
    - The file system is a finite map from the paths that exist to what
      is found there.  Reading it (lines 19-21, [open] and [json.load])
      has three kinds of outcome, and all three are kept: a parsed value,
      the [JSONDecodeError] that line 22 catches, or another exception
      ([UnicodeDecodeError] when the bytes cannot be decoded,
      [RecursionError] on deep nesting, [IsADirectoryError] from [open]),
      which nothing catches.  Writing assumes a path that can be opened for
      writing: a failure of [open(_, "w")] is not modelled. *)

From Stdlib Require Import Ascii String QArith Qround.
From stdpp Require Import base decidable option list sorting strings gmap.

Local Open Scope string_scope.
Local Open Scope list_scope.
Local Open Scope Z_scope.

(** ** Python dictionaries and lists *)

Module Dict.

Definition dict (V : Type) : Type := list (string * V).

Definition keys {V} (d : dict V) : list string := d.*1.

(** [d[k]] and [d.get(k)]: the value of the entry with key [k]. *)
Fixpoint get {V} (d : dict V) (k : string) : option V :=
  match d with
  | [] => None
  | (k', v) :: d' => if decide (k' = k) then Some v else get d' k
  end.

(** [d.get(k, default)] *)
Definition get_default {V} (d : dict V) (k : string) (default : V) : V :=
  match get d k with
  | Some v => v
  | None => default
  end.

(** [d[k] = v]: an existing key keeps its place, a new key goes last. *)
Fixpoint set {V} (d : dict V) (k : string) (v : V) : dict V :=
  match d with
  | [] => [(k, v)]
  | (k', v') :: d' =>
      if decide (k' = k) then (k, v) :: d' else (k', v') :: set d' k v
  end.

End Dict.

Abbreviation dict := Dict.dict.

(** [l.remove(x)]: drops the first occurrence of [x]; [None] stands for
    the [ValueError] of a list without [x]. *)
Fixpoint list_remove (x : string) (l : list string) : option (list string) :=
  match l with
  | [] => None
  | y :: l' => if decide (y = x) then Some l' else cons y <$> list_remove x l'
  end.

(** ** Data model *)

(** The values the program puts in a product dict: a string or an integer
    ([st.number_input] with [min_value=0, step=1] yields an [int]). *)
Inductive value : Type :=
| VStr (s : string)
| VInt (n : Z).

Record Product : Type := mkProduct {
  category : string;
  purchase_price : Z;
  dealer_price : Z;
  selling_price : Z
}.

(** [data]: product name to details, in insertion order. *)
Definition Catalog : Type := dict Product.

(** The details dict of a product, keys in the order lines 289-294 write. *)
Definition product_dict (p : Product) : dict value :=
  [ ("category", VStr (category p));
    ("purchase_price", VInt (purchase_price p));
    ("dealer_price", VInt (dealer_price p));
    ("selling_price", VInt (selling_price p)) ].

Definition catalog_dicts (data : Catalog) : dict (dict value) :=
  prod_map id product_dict <$> data.

(** What a handler shows: [st.success], [st.error], [st.warning], [st.info]. *)
Inductive message : Type :=
| Success (shown : string)
| Error (shown : string)
| Warning (shown : string)
| Info (shown : string).

(** Exceptions a handler can let escape. *)
Inductive exn : Type :=
| KeyError (key : string)
| ValueError
| AttributeError
| StopIteration
| UnicodeDecodeError
| RecursionError
| IsADirectoryError.

Inductive result (A : Type) : Type :=
| Ok (a : A)
| Raise (e : exn).
Arguments Ok {A} a.
Arguments Raise {A} e.

Definition bind {A B} (r : result A) (k : A -> result B) : result B :=
  match r with
  | Ok a => k a
  | Raise e => Raise e
  end.

Notation "'let*' x ':=' r 'in' k" := (bind r (fun x => k))
  (at level 10, x name, r at level 100, k at level 200, only parsing).

(** ** The lookup: branch "Query Product Price" (lines 150-189)

    The sidebar of lines 102-114 does not list this choice; the branch is
    embedded as it is written. *)

(** What the search writes to the page.  [CategoryMatch] is the header line
    of line 167 with one line per product (line 169), [SingleMatch] the line
    of line 185, [NoMatch] one of the two warnings (lines 156 and 189). *)
Inductive LookupResult : Type :=
| CategoryMatch (category_name : string) (rows : list (string * Z * Z))
| SingleMatch (product_name : string) (score : Z) (purchase selling : Z)
| NoMatch (warning : string).

Definition no_products_warning : string :=
  "No products found. Please add some products first.".

Definition no_match_warning : string :=
  "No matching product or category found. Please check your input.".

(** [int(x)] on a float: truncation towards zero. *)
Definition py_int (x : Q) : Z := Z.quot (Qnum x) (Z.pos (Qden x)).

(** [matches.sort(key=lambda x: x[1], reverse=True)]: Python's sort is
    stable, also with [reverse=True], so entries of equal score keep their
    order.  The result of a stable sort is determined by its input; it is
    computed here by insertion. *)
Fixpoint insert_desc (x : string * Q) (l : list (string * Q))
  : list (string * Q) :=
  match l with
  | [] => [x]
  | y :: l' =>
      if Qle_bool (snd y) (snd x) then x :: y :: l' else y :: insert_desc x l'
  end.

Fixpoint sort_desc (l : list (string * Q)) : list (string * Q) :=
  match l with
  | [] => []
  | x :: l' => insert_desc x (sort_desc l')
  end.

Section Lookup.

Variables lower upper strip : string -> string.
Variable token_set_ratio : string -> string -> Q.

(** Lines 159-163.  Keys of [data] are distinct, so the comprehension keeps
    one entry per selected product, in the order of [data]. *)
Definition category_matches (data : Catalog) (query_input : string) : Catalog :=
  filter (fun nd => lower (category nd.2) = lower query_input) data.

(** Lines 174-178. *)
Fixpoint fuzzy_matches (names : list string) (query_input : string)
  : list (string * Q) :=
  match names with
  | [] => []
  | product_name :: rest =>
      let similarity_score := token_set_ratio query_input product_name in
      if Qle_bool 50 similarity_score
      then (product_name, similarity_score) :: fuzzy_matches rest query_input
      else fuzzy_matches rest query_input
  end.

(** The line of line 169: name, purchase price, selling price. *)
Definition price_row (nd : string * Product) : string * Z * Z :=
  (nd.1, purchase_price nd.2, selling_price nd.2).

(** Lines 155-189, for a query already stripped. *)
Definition search (data : Catalog) (query_input : string)
  : result LookupResult :=
  match data with
  | [] => Ok (NoMatch no_products_warning)
  | _ :: _ =>
      match category_matches data query_input with
      | (_ :: _) as matched =>
          Ok (CategoryMatch (upper query_input) (price_row <$> matched))
      | [] =>
          match sort_desc (fuzzy_matches (Dict.keys data) query_input) with
          | (best_match, score) :: _ =>
              match Dict.get data best_match with
              | Some product =>
                  Ok (SingleMatch best_match (py_int score)
                        (purchase_price product) (selling_price product))
              | None => Raise (KeyError best_match)
              end
          | [] => Ok (NoMatch no_match_warning)
          end
      end
  end.

(** Line 152 and the button of line 154. *)
Definition query_product_price (data : Catalog) (entered : string)
  : result LookupResult :=
  search data (strip entered).

End Lookup.

(** ** JSON files: [load_data], [save_data] (lines 17-28) *)

Local Unset Elimination Schemes.
Inductive json : Type :=
| JNull
| JBool (b : bool)
| JInt (n : Z)
| JFloat (x : Q)
| JStr (s : string)
| JArr (items : list json)
| JObj (members : dict json).
Local Set Elimination Schemes.

(** What lines 19-21 do on a path that exists: [json.load] returns the
    parsed value or raises [json.JSONDecodeError], or [open] or
    [json.load] raises another exception. *)
Inductive loaded : Type :=
| Parsed (v : json)
| JSONDecodeError
| Raised (e : exn).

Definition PRODUCTS_FILE : string := "product_prices.json".
Definition CATEGORIES_FILE : string := "categories.json".
Definition DATABASE_FOLDER : string := "database".

Definition value_json (v : value) : json :=
  match v with
  | VStr s => JStr s
  | VInt n => JInt n
  end.

(** The JSON value of [data] and of [{"categories": categories}]. *)
Definition catalog_json (data : Catalog) : json :=
  JObj (prod_map id (fun p => JObj (prod_map id value_json <$> product_dict p))
          <$> data).

Definition categories_json (categories : list string) : json :=
  JObj [("categories", JArr (JStr <$> categories))].

(** [j.get(key, default)]; only a dict has [get]. *)
Definition json_get (j : json) (key : string) (default : json) : result json :=
  match j with
  | JObj members => Ok (Dict.get_default members key default)
  | _ => Raise AttributeError
  end.

(** [os.path.join(DATABASE_FOLDER, file_name)] on POSIX. *)
Definition path_join (folder file_name : string) : string :=
  match file_name with
  | String "/"%char _ => file_name
  | _ => folder +:+ "/" +:+ file_name
  end.

Section Store.

(** What is found at a path, reading it as JSON (lines 19-21),
    [json.dump(_, indent=4)] and what [csv.writer] writes for rows. *)
Variable text : Type.
Variable json_load : text -> loaded.
Variable json_dump : json -> text.
Variable csv_text : list (list value) -> text.

(** Lines 17-24: the [try] catches [json.JSONDecodeError] only. *)
Definition load_data (fs : gmap string text) (file_path : string)
  : result json :=
  match fs !! file_path with
  | Some content =>
      match json_load content with
      | Parsed parsed => Ok parsed
      | JSONDecodeError => Ok (JObj [])
      | Raised e => Raise e
      end
  | None => Ok (JObj [])
  end.

Definition save_data (data : json) (file_path : string) (fs : gmap string text)
  : gmap string text :=
  <[file_path := json_dump data]> fs.

(** Line 121: [load_data(CATEGORIES_FILE).get("categories", [])]. *)
Definition load_categories (fs : gmap string text) : result json :=
  let* stored := load_data fs CATEGORIES_FILE in
  json_get stored "categories" (JArr []).

(** ** [generate_csv] (lines 30-44) *)

(** Line 42. *)
Definition csv_row (selected_columns : list string)
    (product : string) (details : dict value) : list value :=
  (fun col =>
     Dict.get_default details col
       (if decide (col = "Product Name") then VStr product else VStr ""))
  <$> selected_columns.

(** The rows handed to the writer: line 39, then lines 41-43. *)
Definition csv_rows (data : dict (dict value)) (selected_columns : list string)
  : list (list value) :=
  (VStr <$> selected_columns)
  :: ((fun entry => csv_row selected_columns entry.1 entry.2) <$> data).

Definition generate_csv (data : dict (dict value))
    (selected_columns : list string) (file_name : string)
    (fs : gmap string text) : option string * gmap string text :=
  match data with
  | [] => (None, fs)
  | _ :: _ =>
      let file_path := path_join DATABASE_FOLDER file_name in
      (Some file_path, <[file_path := csv_text (csv_rows data selected_columns)]> fs)
  end.

(** ** The CSV pages (lines 204-277) *)

(** Lines 211-214 and 247-250. *)
Definition filter_by_category (data : Catalog) (selected_category : string)
  : Catalog :=
  if decide (selected_category = "All") then data
  else filter (fun nd => category nd.2 = selected_category) data.

(** [next(iter(data.values()))] *)
Definition first_details (data : Catalog) : result (dict value) :=
  match data with
  | (_, details) :: _ => Ok (product_dict details)
  | [] => Raise StopIteration
  end.

(** Line 218, the columns the admin page offers. *)
Definition admin_columns (data : Catalog) : result (list string) :=
  let* details := first_details data in
  Ok ("Product Name" :: Dict.keys details).

(** Lines 254-257, the columns the user page offers. *)
Definition user_columns (data : Catalog) : result (list string) :=
  let* details := first_details data in
  Ok ("Product Name"
      :: filter (fun column => column <> "purchase_price") (Dict.keys details)).

(** [st.multiselect(_, options=all_columns, _)]: the widget returns the
    columns the user picked, and only offered columns can be picked. *)
Definition multiselect (options picked : list string) : list string :=
  filter (fun column => column ∈ options) picked.

(** Lines 216-238 and 252-277, once the button is pressed; the two pages
    differ in the columns they offer. *)
Definition csv_page (all_columns_of : Catalog -> result (list string))
    (data : Catalog) (selected_category : string) (picked : list string)
    (fs : gmap string text) : result (gmap string text * message) :=
  match filter_by_category data selected_category with
  | [] => Ok (fs, Info "No products available for the selected category.")
  | (_ :: _) as filtered_data =>
      let* all_columns := all_columns_of data in
      match multiselect all_columns picked with
      | [] =>
          Ok (fs, Error "Please select at least one column to include in the CSV.")
      | (_ :: _) as selected_columns =>
          match generate_csv (catalog_dicts filtered_data) selected_columns
                  "output.csv" fs with
          | (Some _, fs') => Ok (fs', Success "CSV file generated successfully!")
          | (None, fs') => Ok (fs', Error "Failed to generate CSV file.")
          end
      end
  end.

(** Branch "Generate CSV" (Admin) and branch "CSV Generate" (User). *)
Definition generate_csv_admin := csv_page admin_columns.
Definition csv_generate_user := csv_page user_columns.

(** ** Branch "Add New Product" (lines 279-298) *)

Definition add_product (data : Catalog) (product_name category : string)
    (purchase_price dealer_price selling_price : Z) (fs : gmap string text)
  : Catalog * gmap string text * message :=
  if bool_decide (product_name <> "")
     && bool_decide (category <> "Select a Category")
     && bool_decide (purchase_price > 0)
     && bool_decide (selling_price > 0)
     && bool_decide (dealer_price > 0)
  then
    let data' :=
      Dict.set data product_name
        (mkProduct category purchase_price dealer_price selling_price) in
    (data', save_data (catalog_json data') PRODUCTS_FILE fs,
     Success ("Product '" +:+ product_name +:+ "' added successfully!"))
  else
    (data, fs, Error "Please enter valid details and select a category.").

(** ** Branch "Manage Categories", deletion (lines 430-442) *)

Definition delete_category (data : Catalog) (categories : list string)
    (selected_category : string) (fs : gmap string text)
  : result (Catalog * list string * gmap string text * message) :=
  match categories with
  | [] =>
      Ok (data, categories, fs,
          Info "No categories available. Please add a category first.")
  | _ :: _ =>
      if decide (selected_category ∈ categories) then
        match list_remove selected_category categories with
        | None => Raise ValueError
        | Some categories' =>
            let data' :=
              filter (fun kv => category kv.2 <> selected_category) data in
            let fs' := save_data (catalog_json data') PRODUCTS_FILE fs in
            let fs'' := save_data (categories_json categories') CATEGORIES_FILE fs' in
            Ok (data', categories', fs'',
                Success ("Category '" +:+ selected_category
                         +:+ "' deleted successfully!"))
        end
      else Ok (data, categories, fs, Error "Selected category not found!")
  end.

End Store.

(** ** The exporter's columns, as the specification words them *)

(** The field of a product under a column name. *)
Definition product_field (p : Product) (column : string) : option value :=
  if decide (column = "category") then Some (VStr (category p))
  else if decide (column = "purchase_price") then Some (VInt (purchase_price p))
  else if decide (column = "dealer_price") then Some (VInt (dealer_price p))
  else if decide (column = "selling_price") then Some (VInt (selling_price p))
  else None.

(** "Product Name" is the key, another column is the field of that name,
    the empty string when there is none. *)
Definition resolve_column (product : string) (p : Product) (column : string)
  : value :=
  if decide (column = "Product Name") then VStr product
  else default (VStr "") (product_field p column).

(** A catalog entry with its purchase price blanked: what an observer who
    must not learn purchase prices may know of it. *)
Definition hide_purchase_price (nd : string * Product) : string * Product :=
  (nd.1, mkProduct (category nd.2) 0 (dealer_price nd.2) (selling_price nd.2)).

(** ** A concrete runtime

    ASCII versions of the string methods, a simple scorer and files that
    hold their parsed value: one instance of the parameters above, used to
    run the handlers on concrete inputs. *)

Module Sample.

Definition lower_char (c : ascii) : ascii :=
  let n := Ascii.N_of_ascii c in
  if ((65 <=? n) && (n <=? 90))%N then Ascii.ascii_of_N (n + 32) else c.

Definition upper_char (c : ascii) : ascii :=
  let n := Ascii.N_of_ascii c in
  if ((97 <=? n) && (n <=? 122))%N then Ascii.ascii_of_N (n - 32) else c.

Fixpoint map_chars (f : ascii -> ascii) (s : string) : string :=
  match s with
  | EmptyString => EmptyString
  | String c s' => String (f c) (map_chars f s')
  end.

Definition lower : string -> string := map_chars lower_char.
Definition upper : string -> string := map_chars upper_char.

Definition is_space (c : ascii) : bool :=
  let n := Ascii.N_of_ascii c in
  ((n =? 32) || ((9 <=? n) && (n <=? 13)))%N.

Fixpoint lstrip (s : string) : string :=
  match s with
  | EmptyString => EmptyString
  | String c s' => if is_space c then lstrip s' else s
  end.

Definition strip (s : string) : string :=
  String.rev (lstrip (String.rev (lstrip s))).

Fixpoint common_prefix (s t : string) : nat :=
  match s, t with
  | String a s', String b t' =>
      if decide (a = b) then S (common_prefix s' t') else 0%nat
  | _, _ => 0%nat
  end.

(** A scorer in [0, 100]: twice the common prefix over the total length,
    and 0 when a string is empty, as rapidfuzz scores a string without
    tokens. *)
Definition prefix_ratio (s1 s2 : string) : Q :=
  match String.length s1, String.length s2 with
  | O, _ | _, O => 0%Q
  | n1, n2 =>
      Qmake (200 * Z.of_nat (common_prefix s1 s2)) (Pos.of_nat (n1 + n2))
  end.

(** [Garbled] is text that is not JSON, [Undecodable] bytes that are not
    text, [DeepBrackets] a hundred thousand opening brackets. *)
Inductive document : Type :=
| JsonText (v : json)
| CsvText (rows : list (list value))
| Garbled
| Undecodable
| DeepBrackets.

Definition json_load (d : document) : loaded :=
  match d with
  | JsonText v => Parsed v
  | CsvText _ | Garbled => JSONDecodeError
  | Undecodable => Raised UnicodeDecodeError
  | DeepBrackets => Raised RecursionError
  end.

Definition red_pen : Product := mkProduct "Stationery" 5 6 8.
Definition red_ink : Product := mkProduct "Stationery" 3 4 5.
Definition blue_cup : Product := mkProduct "Kitchen" 20 25 30.

Definition shop : Catalog :=
  [("Red Pen", red_pen); ("Blue Cup", blue_cup); ("Red Ink", red_ink)].

(** The same shop with other purchase prices. *)
Definition shop_repriced : Catalog :=
  [("Red Pen", mkProduct "Stationery" 1 6 8);
   ("Blue Cup", mkProduct "Kitchen" 2 25 30);
   ("Red Ink", mkProduct "Stationery" 4 4 5)].

End Sample.


(** * The rest of the page

    The account functions (lines 46-80), the login, the sidebar and the
    dispatch of [main] (lines 102-114, 126-150 and the [elif] chain), the
    two product tables with their pagination (lines 328-415), the update
    page (lines 300-326) and the addition of a category (lines 419-428). *)

(** ** Python operations on a loaded JSON value *)

(** The account functions work on whatever [json.load] returned, and can
    raise [TypeError] beside the exceptions above. *)
Inductive exception : Type :=
| Standard (e : exn)
| TypeError.

Inductive outcome (A : Type) : Type :=
| Done (a : A)
| Failed (e : exception).
Arguments Done {A} a.
Arguments Failed {A} e.

(** [bool(j)]: [None], [False], zero and the empty string, list and dict
    are false. *)
Definition truthy (j : json) : bool :=
  match j with
  | JNull => false
  | JBool b => b
  | JInt n => negb (n =? 0)
  | JFloat x => negb (Qeq_bool x 0)
  | JStr s => negb (bool_decide (s = ""))
  | JArr items => negb (bool_decide (items = []))
  | JObj members => negb (bool_decide (members = []))
  end.

(** [j[key]] for a string key: only a dict can be indexed by a string. *)
Definition subscript (j : json) (key : string) : outcome json :=
  match j with
  | JObj members =>
      match Dict.get members key with
      | Some v => Done v
      | None => Failed (Standard (KeyError key))
      end
  | _ => Failed TypeError
  end.

(** [j == s] for a string [s]. *)
Definition equals_str (j : json) (s : string) : bool :=
  match j with
  | JStr s' => bool_decide (s' = s)
  | _ => false
  end.

(** [needle in hay] on strings. *)
Fixpoint contains (needle hay : string) : bool :=
  if String.prefix needle hay then true
  else match hay with
       | EmptyString => false
       | String _ hay' => contains needle hay'
       end.

(** [key in j] for a string key: a key of a dict, an element of a list, a
    substring of a string; the other values are not iterable. *)
Definition json_in (key : string) (j : json) : outcome bool :=
  match j with
  | JObj members => Done (bool_decide (key ∈ Dict.keys members))
  | JArr items => Done (existsb (fun item => equals_str item key) items)
  | JStr s => Done (contains key s)
  | _ => Failed TypeError
  end.

(** ** Accounts (lines 13, 46-75) *)

Definition USERS_FILE : string := path_join DATABASE_FOLDER "users.json".

(** The record lines 65 and 73 store for a user. *)
Definition user_json (hashed_password role : string) : json :=
  JObj [("password", JStr hashed_password); ("role", JStr role)].

(** The session state of lines 126-129. *)
Record session : Type := mkSession {
  authenticated : bool;
  username : option string;
  role : option json
}.

Definition fresh_session : session := mkSession false None None.

Section Accounts.

Variable text : Type.
Variable json_load : text -> loaded.
Variable json_dump : json -> text.

(** [hashlib.sha256(password.encode()).hexdigest()] *)
Variable hash_password : string -> string.

(** Lines 50-57. *)
Definition authenticate_user (fs : gmap string text) (name password : string)
  : outcome (option json) :=
  match load_data text json_load fs USERS_FILE with
  | Raise e => Failed (Standard e)
  | Ok users =>
      let hashed_password := hash_password password in
      match json_get users name JNull with
      | Raise e => Failed (Standard e)
      | Ok user =>
          if truthy user then
            match subscript user "password" with
            | Failed e => Failed e
            | Done stored =>
                if equals_str stored hashed_password then Done (Some user)
                else Done None
            end
          else Done None
      end
  end.

(** Lines 59-66. *)
Definition create_default_admin (fs : gmap string text)
  : result (gmap string text) :=
  let* stored := load_data text json_load fs USERS_FILE in
  let users :=
    match stored with
    | JObj members => members
    | _ => []
    end in
  if decide ("Admin" ∈ Dict.keys users) then Ok fs
  else
    Ok (save_data text json_dump
          (JObj (Dict.set users "Admin"
                   (user_json (hash_password "1234") "Admin")))
          USERS_FILE fs).

(** Lines 68-75. *)
Definition signup (fs : gmap string text) (name password role : string)
  : outcome (gmap string text * (bool * string)) :=
  match load_data text json_load fs USERS_FILE with
  | Raise e => Failed (Standard e)
  | Ok users =>
      match json_in name users with
      | Failed e => Failed e
      | Done true => Done (fs, (false, "Username already exists!"))
      | Done false =>
          match users with
          | JObj members =>
              Done (save_data text json_dump
                      (JObj (Dict.set members name
                               (user_json (hash_password password) role)))
                      USERS_FILE fs,
                    (true, "User created successfully!"))
          | _ => Failed TypeError
          end
      end
  end.

(** Lines 136-145, the button pressed.  The assignments to the session
    state before a raise stay. *)
Definition login (fs : gmap string text) (s : session) (name password : string)
  : session * outcome message :=
  match authenticate_user fs name password with
  | Failed e => (s, Failed e)
  | Done None => (s, Done (Error "Invalid username or password."))
  | Done (Some user) =>
      if truthy user then
        match subscript user "role" with
        | Done user_role =>
            (mkSession true (Some name) (Some user_role),
             Done (Success ("Welcome, " +:+ name +:+ "!")))
        | Failed e => (mkSession true (Some name) (role s), Failed e)
        end
      else (s, Done (Error "Invalid username or password."))
  end.

(** Lines 191-202, the button pressed. *)
Definition user_management (fs : gmap string text) (name password role : string)
  : outcome (gmap string text * message) :=
  match signup fs name password role with
  | Failed e => Failed e
  | Done (fs', (true, shown)) => Done (fs', Success shown)
  | Done (fs', (false, shown)) => Done (fs', Error shown)
  end.

End Accounts.

(** Lines 93-97. *)
Definition logout (s : session) : session := mkSession false None None.

(** Lines 77-80: [username.split("@")[0]] is the text before the first
    "@". *)
Fixpoint before_at (s : string) : string :=
  match s with
  | EmptyString => EmptyString
  | String c s' => if decide (c = "@"%char) then EmptyString
                   else String c (before_at s')
  end.

Definition format_username (name : string) : string :=
  if contains "@" name then before_at name else name.

(** ** The sidebar and the dispatch of [main] *)

(** [st.session_state.role == "Admin"] *)
Definition is_admin (r : option json) : bool :=
  match r with
  | Some j => equals_str j "Admin"
  | None => false
  end.

(** Lines 102-114: what the radio offers. *)
Definition menu_options (r : option json) : list string :=
  if is_admin r then
    ["Add New Product"; "Update Product"; "View All Products";
     "Manage Categories"; "Generate CSV"; "User Management"]
  else ["All Products"; "CSV Generate"].

Inductive page : Type :=
| QueryProductPrice
| UserManagement
| GenerateCsv
| CsvGenerate
| AddNewProduct
| UpdateProduct
| ViewAllProducts
| AllProducts
| ManageCategories
| NoPage.

(** The [if]/[elif] chain of lines 150-417, in its order. *)
Definition dispatch (main_menu_choice : string) (r : option json) : page :=
  if decide (main_menu_choice = "Query Product Price") then QueryProductPrice
  else if bool_decide (main_menu_choice = "User Management") && is_admin r
  then UserManagement
  else if bool_decide (main_menu_choice = "Generate CSV") && is_admin r
  then GenerateCsv
  else if decide (main_menu_choice = "CSV Generate") then CsvGenerate
  else if bool_decide (main_menu_choice = "Add New Product") && is_admin r
  then AddNewProduct
  else if bool_decide (main_menu_choice = "Update Product") && is_admin r
  then UpdateProduct
  else if bool_decide (main_menu_choice = "View All Products") && is_admin r
  then ViewAllProducts
  else if decide (main_menu_choice = "All Products") then AllProducts
  else if bool_decide (main_menu_choice = "Manage Categories") && is_admin r
  then ManageCategories
  else NoPage.

(** ** The product tables (lines 328-415) *)

Definition page_size : nat := 10.

(** Lines 355 and 399. *)
Definition total_pages (rows : nat) : nat :=
  (rows / page_size + (if (0 <? rows mod page_size)%nat then 1 else 0))%nat.

(** [l[start:stop]] for indices that are not negative. *)
Definition slice {A} (l : list A) (start stop : nat) : list A :=
  take (stop - start) (drop start l).

(** Lines 364-366 and 408-410. *)
Definition page_rows {A} (rows : list A) (current_page : nat) : list A :=
  let start_idx := ((current_page - 1) * page_size)%nat in
  let end_idx := (start_idx + page_size)%nat in
  slice rows start_idx end_idx.

(** Lines 342-348: a row of the admin table. *)
Definition product_info_admin (nd : string * Product) : dict value :=
  [ ("Product Name", VStr nd.1);
    ("Category", VStr (category nd.2));
    ("Purchase Price", VInt (purchase_price nd.2));
    ("Dealer Price", VInt (dealer_price nd.2));
    ("Selling Price", VInt (selling_price nd.2)) ].

(** Lines 387-392: a row of the user table. *)
Definition product_info_user (nd : string * Product) : dict value :=
  [ ("Product Name", VStr nd.1);
    ("Category", VStr (category nd.2));
    ("Dealer Price", VInt (dealer_price nd.2));
    ("Selling Price", VInt (selling_price nd.2)) ].

(** What a table page shows: [st.dataframe] of a page, or [st.info]. *)
Inductive table_view : Type :=
| Dataframe (rows : list (dict value))
| NoProducts (shown : string).

(** Lines 330-371 and 375-415; [slider_page] is what [st.slider] returns,
    read only when there is more than one page. *)
Definition products_page (product_info : string * Product -> dict value)
    (data : Catalog) (selected_category : string) (slider_page : nat)
  : table_view :=
  match filter_by_category data selected_category with
  | [] => NoProducts "No products found for the selected category."
  | (_ :: _) as filtered_data =>
      let product_list := product_info <$> filtered_data in
      let pages := total_pages (length product_list) in
      let current_page := if (1 <? pages)%nat then slider_page else 1%nat in
      Dataframe (page_rows product_list current_page)
  end.

Definition view_all_products := products_page product_info_admin.
Definition all_products := products_page product_info_user.

Section Editing.

Variable text : Type.
Variable json_dump : json -> text.

(** ** Branch "Update Product" (lines 300-326), the button pressed *)

Definition update_product (data : Catalog)
    (selected_category selected_product new_category : string)
    (new_purchase_price new_dealer_price new_selling_price : Z)
    (fs : gmap string text)
  : result (Catalog * gmap string text * option message) :=
  if decide (selected_category = "") then Ok (data, fs, None)
  else
    match filter (fun nd => category nd.2 = selected_category) data with
    | [] =>
        Ok (data, fs,
            Some (Warning "No products found in the selected category."))
    | _ :: _ =>
        if decide (selected_product = "") then Ok (data, fs, None)
        else
          match Dict.get data selected_product with
          | None => Raise (KeyError selected_product)
          | Some _ =>
              let data' :=
                Dict.set data selected_product
                  (mkProduct new_category new_purchase_price
                     new_dealer_price new_selling_price) in
              Ok (data', save_data text json_dump (catalog_json data')
                           PRODUCTS_FILE fs,
                  Some (Success ("Product '" +:+ selected_product
                                 +:+ "' has been updated!")))
          end
    end.

(** ** Branch "Manage Categories", addition (lines 419-428) *)

Definition add_category (categories : list string) (new_category : string)
    (fs : gmap string text) : list string * gmap string text * message :=
  if bool_decide (new_category <> "") && bool_decide (new_category ∉ categories)
  then
    let categories' := categories ++ [new_category] in
    (categories',
     save_data text json_dump (categories_json categories') CATEGORIES_FILE fs,
     Success ("Category '" +:+ new_category +:+ "' added successfully!"))
  else if decide (new_category ∈ categories)
  then (categories, fs, Warning "Category already exists!")
  else (categories, fs, Error "Please enter a valid category name.").

End Editing.

(** The state the editing pages keep: keys and categories without repeats,
    every product in a listed category and with three positive prices. *)
Definition consistent (data : Catalog) (categories : list string) : Prop :=
  NoDup (Dict.keys data)
  /\ NoDup categories
  /\ Forall (fun nd => category nd.2 ∈ categories
                       /\ purchase_price nd.2 > 0
                       /\ dealer_price nd.2 > 0
                       /\ selling_price nd.2 > 0) data.

(** A sample user store and a stand-in for the hash. *)
Module SampleAccounts.

Definition sample_hash (password : string) : string := "#" +:+ password.

Definition users_doc : Sample.document :=
  Sample.JsonText
    (JObj [("Admin", user_json (sample_hash "1234") "Admin");
           ("ann@shop.example", user_json (sample_hash "tulip") "User")]).

Definition store : gmap string Sample.document := {[USERS_FILE := users_doc]}.

End SampleAccounts.

(** * Properties *)

(** ** Dictionaries *)

Lemma get_is_Some {V} (d : dict V) (k : string) :
  k ∈ Dict.keys d -> is_Some (Dict.get d k).
Proof.
  unfold Dict.keys. induction d as [|[k' v] d IH]; simpl.
  - intros H. inversion H.
  - intros H. destruct (decide (k' = k)); [eauto|].
    apply IH. apply elem_of_cons in H. destruct H; [congruence|done].
Qed.

Lemma filter_nil_Forall {A} (P : A -> Prop) `{!forall x, Decision (P x)}
    (l : list A) :
  filter P l = [] <-> Forall (fun x => ~ P x) l.
Proof.
  induction l as [|a l IH]; [done|].
  rewrite filter_cons, Forall_cons. destruct (decide (P a)).
  - split; [done|]. intros [? _]. done.
  - rewrite IH. tauto.
Qed.

(** ** The stable descending sort *)

Lemma sort_desc_nil (l : list (string * Q)) : sort_desc l = [] -> l = [].
Proof.
  destruct l as [|x l]; [done|]. simpl.
  destruct (sort_desc l) as [|y r]; simpl; [done|].
  destruct (Qle_bool y.2 x.2); done.
Qed.

(** [sort_desc] is the stable descending sort: it permutes its input, its
    result is in descending order of score, and entries of equal score
    stay in the order they had. *)

Lemma insert_desc_perm (x : string * Q) (l : list (string * Q)) :
  insert_desc x l ≡ₚ x :: l.
Proof.
  induction l as [|y l IH]; simpl; [done|].
  destruct (Qle_bool y.2 x.2); [done|].
  rewrite IH. apply Permutation_swap.
Qed.

Lemma sort_desc_perm (l : list (string * Q)) : sort_desc l ≡ₚ l.
Proof.
  induction l as [|x l IH]; simpl; [done|].
  rewrite insert_desc_perm, IH. done.
Qed.

Lemma insert_desc_sorted (x : string * Q) (l : list (string * Q)) :
  StronglySorted (fun a b => (b.2 <= a.2)%Q) l ->
  StronglySorted (fun a b => (b.2 <= a.2)%Q) (insert_desc x l).
Proof.
  induction l as [|y l IH]; simpl; intros Hs.
  - repeat constructor.
  - destruct (Qle_bool y.2 x.2) eqn:Hle.
    + apply Qle_bool_iff in Hle. constructor; [done|].
      constructor; [done|]. apply StronglySorted_inv in Hs as [_ Hy].
      eapply Forall_impl; [exact Hy|]. simpl. intros z Hz.
      eapply Qle_trans; eauto.
    + apply StronglySorted_inv in Hs as [Hl Hy]. constructor; [auto|].
      rewrite insert_desc_perm. constructor; [|done].
      apply Qlt_le_weak, Qnot_le_lt. intros Hc.
      apply Qle_bool_iff in Hc. congruence.
Qed.

Lemma sort_desc_sorted (l : list (string * Q)) :
  StronglySorted (fun a b => (b.2 <= a.2)%Q) (sort_desc l).
Proof.
  induction l as [|x l IH]; simpl; [constructor|].
  by apply insert_desc_sorted.
Qed.

Lemma sort_desc_stable (k : Q) (l : list (string * Q)) :
  filter (fun y => Qeq_bool y.2 k = true) (sort_desc l)
  = filter (fun y => Qeq_bool y.2 k = true) l.
Proof.
  induction l as [|x l IH]; simpl; [done|].
  rewrite filter_cons, <- IH. clear IH.
  induction (sort_desc l) as [|y r IHr]; simpl.
  - rewrite filter_cons. done.
  - destruct (Qle_bool y.2 x.2) eqn:Hle.
    + rewrite filter_cons. done.
    + rewrite !(filter_cons _ y), IHr.
      destruct (decide (Qeq_bool x.2 k = true)) as [Hx|Hx]; [|done].
      destruct (decide (Qeq_bool y.2 k = true)) as [Hy|Hy]; [|done].
      apply Qeq_bool_iff in Hx, Hy. exfalso.
      assert (Qle_bool y.2 x.2 = true); [|congruence].
      apply Qle_bool_iff. rewrite Hx, Hy. apply Qle_refl.
Qed.

(** The head of the sorted list is the first entry of greatest score. *)
Lemma sort_desc_head (l : list (string * Q)) (x : string * Q) (rest : list (string * Q)) :
  sort_desc l = x :: rest ->
  exists before after,
    l = before ++ x :: after
    /\ Forall (fun y => (y.2 < x.2)%Q) before
    /\ Forall (fun y => (y.2 <= x.2)%Q) after.
Proof.
  revert x rest. induction l as [|a l IH]; intros x rest; simpl; [done|].
  destruct (sort_desc l) as [|y r] eqn:Hs; simpl.
  - intros [= <- <-]. apply sort_desc_nil in Hs as ->.
    exists [], []. split_and!; constructor.
  - destruct (IH y r eq_refl) as (before & after & -> & Hb & Ha).
    destruct (Qle_bool y.2 a.2) eqn:Hle.
    + intros [= <- <-]. apply Qle_bool_iff in Hle.
      exists [], (before ++ y :: after). split_and!; [done|constructor|].
      apply Forall_app. split; [|constructor].
      * eapply Forall_impl; [exact Hb|]. simpl. intros z Hz.
        apply Qlt_le_weak. eapply Qlt_le_trans; eauto.
      * done.
      * eapply Forall_impl; [exact Ha|]. simpl. intros z Hz.
        eapply Qle_trans; eauto.
    + intros [= <- <-].
      exists (a :: before), after. split_and!; [done| |done].
      constructor; [|done]. apply Qnot_le_lt. intros Hc.
      apply Qle_bool_iff in Hc. congruence.
Qed.

Section LookupFacts.

Variables lower upper strip : string -> string.
Variable token_set_ratio : string -> string -> Q.

Local Abbreviation fuzzy := (fuzzy_matches token_set_ratio).
Local Abbreviation lookup := (search lower upper token_set_ratio).

Lemma fuzzy_matches_elem (names : list string) (q n : string) (s : Q) :
  (n, s) ∈ fuzzy names q <->
  n ∈ names /\ s = token_set_ratio q n /\ (50 <= s)%Q.
Proof.
  induction names as [|m names IH]; simpl.
  - split; [intros H; inversion H|intros [H _]; inversion H].
  - destruct (Qle_bool 50 (token_set_ratio q m)) eqn:Hle.
    + rewrite !elem_of_cons, IH. apply Qle_bool_iff in Hle. split.
      * intros [Heq|(? & ? & ?)]; [|auto].
        injection Heq as -> ->. auto.
      * intros ([->|?] & -> & ?); auto.
    + rewrite IH, elem_of_cons. split; [intros (? & ? & ?); auto|].
      intros ([->|?] & -> & Hge); [|auto].
      apply Qle_bool_iff in Hge. congruence.
Qed.

(** A split of the candidates is a split of the names they came from. *)
Lemma fuzzy_matches_split (names : list string) (q n : string) (s : Q)
    (before after : list (string * Q)) :
  fuzzy names q = before ++ (n, s) :: after ->
  exists names1 names2,
    names = names1 ++ n :: names2
    /\ s = token_set_ratio q n /\ (50 <= s)%Q
    /\ fuzzy names1 q = before /\ fuzzy names2 q = after.
Proof.
  revert before. induction names as [|m names IH]; intros before; simpl.
  - destruct before; done.
  - destruct (Qle_bool 50 (token_set_ratio q m)) eqn:Hle.
    + destruct before as [|b before]; simpl.
      * intros [= -> <- <-]. exists [], names. simpl.
        apply Qle_bool_iff in Hle. done.
      * intros [= <- H]. destruct (IH _ H) as (n1 & n2 & -> & ? & ? & ? & ?).
        exists (m :: n1), n2. simpl. rewrite Hle. split_and!; congruence.
    + intros H. destruct (IH _ H) as (n1 & n2 & -> & ? & ? & ? & ?).
      exists (m :: n1), n2. simpl. rewrite Hle. done.
Qed.

(** Names below the threshold and candidates below [top] are all below
    [top]. *)
Lemma fuzzy_matches_bound (R : Q -> Q -> Prop) (names : list string) (q : string) (top : Q) :
  (forall x, (x < 50)%Q -> R x top) ->
  Forall (fun y => R y.2 top) (fuzzy names q) ->
  Forall (fun n => R (token_set_ratio q n) top) names.
Proof.
  intros Hlow. induction names as [|m names IH]; simpl; [constructor|].
  destruct (Qle_bool 50 (token_set_ratio q m)) eqn:Hle.
  - intros H. inversion_clear H. constructor; auto.
  - intros H. constructor; [|auto]. apply Hlow. apply Qnot_le_lt.
    intros Hc. apply Qle_bool_iff in Hc. congruence.
Qed.

Lemma py_int_floor (x : Q) : (0 <= x)%Q -> py_int x = Qfloor x.
Proof.
  destruct x as [n d]. unfold py_int, Qfloor, Qle. simpl. intros H.
  apply Z.quot_div_nonneg; lia.
Qed.

(** The result of the fuzzy pass, when no category matches. *)
Lemma search_fuzzy (data : Catalog) (q : string) :
  data <> [] -> category_matches lower data q = [] ->
  lookup data q =
    match sort_desc (fuzzy (Dict.keys data) q) with
    | (best_match, score) :: _ =>
        match Dict.get data best_match with
        | Some product =>
            Ok (SingleMatch best_match (py_int score)
                  (purchase_price product) (selling_price product))
        | None => Raise (KeyError best_match)
        end
    | [] => Ok (NoMatch no_match_warning)
    end.
Proof.
  intros Hd Hc. unfold search. rewrite Hc. destruct data; done.
Qed.

Lemma sort_desc_head_candidate (names : list string) (q n : string) (s : Q)
    (rest : list (string * Q)) :
  sort_desc (fuzzy names q) = (n, s) :: rest ->
  n ∈ names /\ s = token_set_ratio q n /\ (50 <= s)%Q.
Proof.
  intros H. apply sort_desc_head in H as (b & a & H & _).
  apply fuzzy_matches_elem. rewrite H. apply elem_of_app. right. left.
Qed.

(** Without a category match and without a name at the threshold, the
    search ends in a warning. *)
Lemma search_no_candidate (data : Catalog) (q : string) :
  category_matches lower data q = [] ->
  (forall n, n ∈ Dict.keys data -> (token_set_ratio q n < 50)%Q) ->
  exists w, lookup data q = Ok (NoMatch w).
Proof.
  intros Hc Hlow. destruct data as [|d data']; [eexists; reflexivity|].
  rewrite search_fuzzy by done.
  destruct (sort_desc _) as [|[best score] rest] eqn:Hs; [eauto|].
  apply sort_desc_head_candidate in Hs as (Hk & -> & Hge).
  exfalso. apply (Qlt_not_le _ _ (Hlow best Hk)). done.
Qed.

End LookupFacts.

(** ** The lookup *)

Section LookupClaims.

Variables lower upper strip : string -> string.
Variable token_set_ratio : string -> string -> Q.

Local Abbreviation fuzzy := (fuzzy_matches token_set_ratio).
Local Abbreviation lookup := (search lower upper token_set_ratio).

(** C1.  If some product's category, lowercased, equals the lowercased
    query, the search answers with a [CategoryMatch] headed by the
    upper-cased query whose rows are exactly the products of that category
    (name, purchase price, selling price), in catalog order.  The answer is
    the same whatever the scorer is: the fuzzy pass plays no part in it. *)
Theorem category_match_exact (data : Catalog) (q : string) :
  (exists n p, (n, p) ∈ data /\ lower (category p) = lower q) ->
  exists rows,
    (forall ratio,
       search lower upper ratio data q = Ok (CategoryMatch (upper q) rows))
    /\ rows
       = price_row <$> filter (fun nd => lower (category nd.2) = lower q) data
    /\ (forall n pu se,
          (n, pu, se) ∈ rows <->
          exists p, (n, p) ∈ data /\ lower (category p) = lower q
                    /\ pu = purchase_price p /\ se = selling_price p).
Proof.
  intros (n0 & p0 & Hin & Hcat).
  exists (price_row <$> filter (fun nd => lower (category nd.2) = lower q) data).
  split_and!; [|done|].
  - intros ratio. unfold search, category_matches.
    assert (Hne : (n0, p0) ∈ filter (fun nd => lower (category nd.2) = lower q) data)
      by (apply list_elem_of_filter; done).
    destruct data as [|d data']; [inversion Hin|].
    set (matched := filter _ _) in *.
    destruct matched as [|m ms]; [inversion Hne|done].
  - intros n pu se. rewrite list_elem_of_fmap. split.
    + intros ([n' p] & [= -> -> ->] & Hp). apply list_elem_of_filter in Hp as [? ?].
      exists p. done.
    + intros (p & ? & ? & -> & ->). exists (n, p). split; [done|].
      apply list_elem_of_filter. done.
Qed.

(** C2.  When no product's category matches the query, the search answers
    with a [SingleMatch] exactly when some product name scores at least 50
    against the query, and with [NoMatch] when none does. *)
Theorem fuzzy_pass_threshold (data : Catalog) (q : string) :
  Forall (fun nd => lower (category nd.2) <> lower q) data ->
  ((exists n s pu se, lookup data q = Ok (SingleMatch n s pu se))
   <-> (exists n, n ∈ Dict.keys data /\ (50 <= token_set_ratio q n)%Q))
  /\ ((forall n, n ∈ Dict.keys data -> (token_set_ratio q n < 50)%Q)
      -> exists w, lookup data q = Ok (NoMatch w)).
Proof.
  intros Hno.
  assert (Hc : category_matches lower data q = []).
  { unfold category_matches. apply filter_nil_Forall. exact Hno. }
  destruct data as [|d data'].
  { split; [split|].
    - intros (? & ? & ? & ? & [=]).
    - intros (n & Hn & _). inversion Hn.
    - intros _. eexists. reflexivity. }
  rewrite search_fuzzy by done. set (data := d :: data') in *.
  destruct (sort_desc (fuzzy (Dict.keys data) q)) as [|[best score] rest] eqn:Hs.
  - apply sort_desc_nil in Hs. split; [split|].
    + intros (? & ? & ? & ? & [=]).
    + intros (n & Hn & Hge). exfalso.
      assert ((n, token_set_ratio q n) ∈ fuzzy (Dict.keys data) q) as Hm
        by (apply fuzzy_matches_elem; done).
      rewrite Hs in Hm. inversion Hm.
    + intros _. eexists. reflexivity.
  - destruct (sort_desc_head_candidate _ _ _ _ _ _ Hs) as (Hk & -> & Hge).
    destruct (get_is_Some data best Hk) as [product ->]. split; [split|].
    + intros _. exists best. done.
    + intros _. do 4 eexists. reflexivity.
    + intros Hlow. exfalso. apply (Qlt_not_le _ _ (Hlow best Hk)). done.
Qed.

(** C3.  A [SingleMatch] names the first product, in catalog order, whose
    score is the greatest: every earlier name scores strictly less, every
    later name scores no more, the score itself is at least 50, the score
    shown is that greatest score rounded down, and the prices are those the
    catalog holds for that name.  The name and the score depend on the
    order of the names only: a catalog with the same names in the same
    order, again without a category match, gives the same ones. *)
Theorem single_match_first_maximum (data : Catalog) (q n : string) (s pu se : Z) :
  lookup data q = Ok (SingleMatch n s pu se) ->
  (exists before after,
     Dict.keys data = before ++ n :: after
     /\ (50 <= token_set_ratio q n)%Q
     /\ s = Qfloor (token_set_ratio q n)
     /\ Forall (fun m => (token_set_ratio q m < token_set_ratio q n)%Q) before
     /\ Forall (fun m => (token_set_ratio q m <= token_set_ratio q n)%Q) after
     /\ exists product,
          Dict.get data n = Some product
          /\ pu = purchase_price product /\ se = selling_price product)
  /\ (forall data2,
        Dict.keys data2 = Dict.keys data ->
        Forall (fun nd => lower (category nd.2) <> lower q) data2 ->
        exists pu2 se2, lookup data2 q = Ok (SingleMatch n s pu2 se2)).
Proof.
  unfold search at 1. destruct data as [|d data']; [done|].
  set (data := d :: data').
  destruct (category_matches lower data q); [|done].
  destruct (sort_desc (fuzzy (Dict.keys data) q)) as [|[best score] rest] eqn:Hs;
    [done|].
  destruct (Dict.get data best) as [product|] eqn:Hg; [|done].
  intros [= -> <- <- <-]. split.
  - apply sort_desc_head in Hs as (cb & ca & Hsplit & Hb & Ha).
    apply fuzzy_matches_split in Hsplit as (n1 & n2 & Hk & -> & Hge & <- & <-).
    exists n1, n2. split_and!; [done|done| | | |eauto].
    + apply py_int_floor. eapply Qle_trans; [|exact Hge]. done.
    + apply (fuzzy_matches_bound _ (fun x y => (x < y)%Q)); [|exact Hb].
      intros x Hx. eapply Qlt_le_trans; eauto.
    + apply (fuzzy_matches_bound _ (fun x y => (x <= y)%Q)); [|exact Ha].
      intros x Hx. apply Qlt_le_weak. eapply Qlt_le_trans; eauto.
  - intros data2 Hkeys Hno.
    assert (data2 <> []) by (intros ->; done).
    rewrite search_fuzzy by (done || by apply filter_nil_Forall).
    rewrite Hkeys, Hs.
    apply sort_desc_head_candidate in Hs as (Hk & _). rewrite <- Hkeys in Hk.
    destruct (get_is_Some data2 n Hk) as [product2 ->]. eauto.
Qed.

(** C4.  The search never raises.  On an empty catalog it answers
    [NoMatch] for every query.  On a query that strips to the empty string
    it answers with the category match of the products whose category is
    empty when there are some, and with [NoMatch] otherwise.  This last
    part rests on two facts of the libraries: [str.lower] sends only the
    empty string to the lowercased empty string, and rapidfuzz scores an
    empty query below the threshold (it returns 0 for a string without
    tokens). *)
Theorem lookup_never_fails :
  (forall data entered,
     exists r,
       query_product_price lower upper strip token_set_ratio data entered = Ok r)
  /\ (forall entered,
        query_product_price lower upper strip token_set_ratio [] entered
        = Ok (NoMatch no_products_warning))
  /\ ((forall s, lower s = lower "" -> s = "") ->
      (forall name, (token_set_ratio "" name < 50)%Q) ->
      forall data entered,
        strip entered = "" ->
        let blank := filter (fun nd => category nd.2 = "") data in
        (blank = [] ->
         exists w,
           query_product_price lower upper strip token_set_ratio data entered
           = Ok (NoMatch w))
        /\ (blank <> [] ->
            query_product_price lower upper strip token_set_ratio data entered
            = Ok (CategoryMatch (upper "") (price_row <$> blank)))).
Proof.
  split_and!.
  - intros data entered. unfold query_product_price, search.
    destruct data as [|d data']; [eauto|]. set (data := d :: data').
    destruct (category_matches lower data (strip entered)); [|eauto].
    destruct (sort_desc _) as [|[best score] rest] eqn:Hs; [eauto|].
    apply sort_desc_head_candidate in Hs as (Hk & _).
    destruct (get_is_Some data best Hk) as [product ->]. eauto.
  - done.
  - intros Hlower Hempty data entered Hstrip blank.
    unfold query_product_price. rewrite Hstrip.
    assert (Hcm : category_matches lower data "" = blank).
    { unfold category_matches, blank. apply list_filter_iff.
      intros nd. split; [apply Hlower|intros ->; done]. }
    split.
    + intros Hb. apply search_no_candidate; [congruence|].
      intros n _. apply Hempty.
    + intros Hb. unfold search. rewrite Hcm.
      destruct data as [|d data']; [done|].
      destruct blank; done.
Qed.

End LookupClaims.

(** ** Dictionary update *)

Lemma set_keys {V} (d : dict V) (k : string) (v : V) :
  k ∈ Dict.keys d -> Dict.keys (Dict.set d k v) = Dict.keys d.
Proof.
  unfold Dict.keys. induction d as [|[k' v'] d IH]; simpl.
  - intros H. inversion H.
  - intros H. destruct (decide (k' = k)) as [->|Hne]; simpl; [done|].
    f_equal. apply IH. apply elem_of_cons in H. destruct H; [congruence|done].
Qed.

Lemma get_set_eq {V} (d : dict V) (k : string) (v : V) :
  Dict.get (Dict.set d k v) k = Some v.
Proof.
  induction d as [|[k' v'] d IH]; simpl.
  - destruct (decide (k = k)); done.
  - destruct (decide (k' = k)) as [->|Hne]; simpl.
    + destruct (decide (k = k)); done.
    + destruct (decide (k' = k)); done.
Qed.

Lemma get_set_ne {V} (d : dict V) (k k' : string) (v : V) :
  k' <> k -> Dict.get (Dict.set d k v) k' = Dict.get d k'.
Proof.
  intros Hne. induction d as [|[k0 v0] d IH]; simpl.
  - destruct (decide (k = k')); congruence.
  - destruct (decide (k0 = k)) as [->|Hne0]; simpl.
    + destruct (decide (k = k')); congruence.
    + destruct (decide (k0 = k')); done.
Qed.

(** An update leaves every entry under another key where it is. *)
Lemma set_lookup_ne {V} (d : dict V) (k k' : string) (v v' : V) (i : nat) :
  k' <> k ->
  Dict.set d k v !! i = Some (k', v') <-> d !! i = Some (k', v').
Proof.
  intros Hne. revert i. induction d as [|[k0 v0] d IH]; intros i; simpl.
  - destruct i as [|i]; simpl; [|done]. split; [congruence|done].
  - destruct (decide (k0 = k)) as [->|Hne0]; destruct i as [|i]; simpl;
      try done.
    split; congruence.
Qed.

(** An update adds at most the entry it writes. *)
Lemma set_elem_of {V} (d : dict V) (k : string) (v : V) (e : string * V) :
  e ∈ Dict.set d k v -> e ∈ d \/ e = (k, v).
Proof.
  induction d as [|[k0 v0] d IH]; simpl.
  - intros H. apply list_elem_of_singleton in H. auto.
  - destruct (decide (k0 = k)) as [->|Hne0].
    + intros H. apply elem_of_cons in H as [->|H]; [auto|].
      left. right. done.
    + intros H. apply elem_of_cons in H as [->|H]; [left; left|].
      destruct (IH H); [left; right|]; auto.
Qed.

(** ** The stores and the pages that write them *)

Lemma list_remove_NoDup (x : string) (l : list string) :
  x ∈ l -> NoDup l ->
  list_remove x l = Some (filter (fun y => y <> x) l).
Proof.
  induction l as [|y l IH]; simpl.
  - intros H. inversion H.
  - intros Hin Hnd. apply NoDup_cons in Hnd as [Hy Hnd].
    rewrite filter_cons. destruct (decide (y = x)) as [->|Hne].
    + destruct (decide (x <> x)); [done|]. f_equal. symmetry.
      clear IH Hin Hnd. induction l as [|z l IH]; [done|].
      apply not_elem_of_cons in Hy as [? ?].
      rewrite filter_cons_True by done. f_equal. auto.
    + destruct (decide (y <> x)); [|done].
      apply elem_of_cons in Hin as [->|Hin]; [done|].
      rewrite IH by done. done.
Qed.

Lemma get_None {V} (d : dict V) (k : string) :
  k ∉ Dict.keys d -> Dict.get d k = None.
Proof.
  unfold Dict.keys. induction d as [|[k' v] d IH]; simpl; [done|].
  intros H. apply not_elem_of_cons in H as [? ?].
  destruct (decide (k' = k)); [congruence|auto].
Qed.

Lemma filter_fmap_comm {A B} (f : A -> B) (P : B -> Prop) (Q : A -> Prop)
    `{!forall y, Decision (P y)} `{!forall x, Decision (Q x)} (l : list A) :
  (forall x, P (f x) <-> Q x) -> filter P (f <$> l) = f <$> filter Q l.
Proof.
  intros HPQ. induction l as [|a l IH]; [done|].
  rewrite fmap_cons, !filter_cons, IH.
  destruct (decide (P (f a))) as [HP|HP], (decide (Q a)) as [HQ|HQ];
    try done; [apply HPQ in HP|apply HPQ in HQ]; done.
Qed.

(** A product dict has no key "Product Name", and its keys are the four
    field names. *)
Lemma product_dict_get (p : Product) (column : string) :
  Dict.get (product_dict p) column = product_field p column.
Proof.
  unfold product_field. simpl.
  repeat match goal with
         | |- context [decide (?a = column)] =>
             destruct (decide (a = column)) as [<-|?]; [done|]
         end.
  repeat match goal with
         | |- context [decide (column = ?a)] =>
             destruct (decide (column = a)) as [->|?]; [done|]
         end.
  done.
Qed.

(** Line 42 on a product dict. *)
Lemma csv_row_product (cols : list string) (product : string) (p : Product) :
  csv_row cols product (product_dict p) = resolve_column product p <$> cols.
Proof.
  unfold csv_row. apply list_fmap_ext. intros _ col _.
  unfold Dict.get_default, resolve_column. rewrite product_dict_get.
  destruct (decide (col = "Product Name")) as [->|?]; [done|].
  destruct (product_field p col); done.
Qed.

(** A row without the purchase price column does not depend on the
    purchase price. *)
Lemma csv_row_hide (cols : list string) (nd : string * Product) :
  "purchase_price" ∉ cols ->
  csv_row cols (hide_purchase_price nd).1 (product_dict (hide_purchase_price nd).2)
  = csv_row cols nd.1 (product_dict nd.2).
Proof.
  intros Hnot. rewrite !csv_row_product. apply list_fmap_ext.
  intros i col Hcol. unfold resolve_column, product_field. simpl.
  assert (col <> "purchase_price").
  { intros Heq. subst col. apply Hnot. eapply list_elem_of_lookup_2. exact Hcol. }
  destruct (decide (col = "purchase_price")); done.
Qed.

Lemma filter_by_category_hide (data : Catalog) (selected_category : string) :
  filter_by_category (hide_purchase_price <$> data) selected_category
  = hide_purchase_price <$> filter_by_category data selected_category.
Proof.
  unfold filter_by_category.
  destruct (decide (selected_category = "All")); [done|].
  apply filter_fmap_comm. done.
Qed.

Lemma user_columns_offered (data : Catalog) (cols : list string) :
  user_columns data = Ok cols ->
  cols = ["Product Name"; "category"; "dealer_price"; "selling_price"].
Proof.
  unfold user_columns, first_details. destruct data as [|[n p] data']; simpl;
    [done|]. intros [= <-]. done.
Qed.

Lemma multiselect_offered (options picked : list string) (column : string) :
  column ∈ multiselect options picked -> column ∈ options.
Proof. unfold multiselect. rewrite list_elem_of_filter. tauto. Qed.

Section StoreClaims.

Variable text : Type.
Variable json_load : text -> loaded.
Variable json_dump : json -> text.
Variable csv_text : list (list value) -> text.

(** C5.  What [load_data] does, case by case: the empty dict for a
    missing file and for a file on which [json.load] raises
    [JSONDecodeError], the parsed value for a file it parses, and, against
    the claim, the exception itself for a file on which [json.load] raises
    anything else (bytes that cannot be decoded, brackets nested too
    deep): lines 20-23 catch [JSONDecodeError] only, while the comment of
    line 23 promises the empty dict for an invalid file.  The category
    list of line 121 is the empty list in the first two cases and the
    stored list for a file that holds one; it raises the same exception
    in the last case, and [AttributeError] for a file whose JSON value is
    not an object. *)
Theorem load_data_outcomes (fs : gmap string text) (file_path : string) :
  (fs !! file_path = None ->
   load_data text json_load fs file_path = Ok (JObj []))
  /\ (forall content,
        fs !! file_path = Some content -> json_load content = JSONDecodeError ->
        load_data text json_load fs file_path = Ok (JObj []))
  /\ (forall content parsed,
        fs !! file_path = Some content -> json_load content = Parsed parsed ->
        load_data text json_load fs file_path = Ok parsed)
  /\ (forall content e,
        fs !! file_path = Some content -> json_load content = Raised e ->
        load_data text json_load fs file_path = Raise e)
  /\ (load_data text json_load fs CATEGORIES_FILE = Ok (JObj []) ->
      load_categories text json_load fs = Ok (JArr []))
  /\ (forall categories,
        load_data text json_load fs CATEGORIES_FILE
        = Ok (categories_json categories) ->
        load_categories text json_load fs = Ok (JArr (JStr <$> categories)))
  /\ (forall e,
        load_data text json_load fs CATEGORIES_FILE = Raise e ->
        load_categories text json_load fs = Raise e)
  /\ (forall stored,
        load_data text json_load fs CATEGORIES_FILE = Ok stored ->
        (forall members, stored <> JObj members) ->
        load_categories text json_load fs = Raise AttributeError).
Proof.
  unfold load_categories, load_data. split_and!.
  - intros ->. done.
  - intros content -> ->. done.
  - intros content parsed -> ->. done.
  - intros content e -> ->. done.
  - intros ->. done.
  - intros categories ->. done.
  - intros e ->. done.
  - intros stored -> Hnot. destruct stored; try done.
    by destruct (Hnot members).
Qed.

(** C7.  The add page writes exactly when the name is not empty, the
    category is not the placeholder and the three prices are positive: then
    the catalog gets the product under its name and is saved; otherwise the
    catalog and the files stay as they were and the page shows an error.
    So an entry of the resulting catalog that was not there before has
    three positive prices. *)
Theorem add_product_guard (data : Catalog) (product_name cat : string)
    (pu de se : Z) (fs : gmap string text) :
  let accepted :=
    product_name <> "" /\ cat <> "Select a Category"
    /\ pu > 0 /\ se > 0 /\ de > 0 in
  let '(data', fs', shown) :=
    add_product text json_dump data product_name cat pu de se fs in
  (accepted ->
   data' = Dict.set data product_name (mkProduct cat pu de se)
   /\ fs' = <[PRODUCTS_FILE := json_dump (catalog_json data')]> fs
   /\ shown = Success ("Product '" +:+ product_name +:+ "' added successfully!"))
  /\ (~ accepted ->
      data' = data /\ fs' = fs
      /\ shown = Error "Please enter valid details and select a category.")
  /\ (forall n p,
        (n, p) ∈ data' -> (n, p) ∉ data ->
        n = product_name /\ n <> ""
        /\ purchase_price p > 0 /\ dealer_price p > 0 /\ selling_price p > 0).
Proof.
  unfold add_product.
  destruct (bool_decide (product_name <> "") && bool_decide (cat <> "Select a Category")
            && bool_decide (pu > 0) && bool_decide (se > 0) && bool_decide (de > 0))
    eqn:Hguard.
  - repeat (apply andb_prop in Hguard as [Hguard ?]).
    repeat match goal with H : bool_decide _ = true |- _ =>
      apply bool_decide_eq_true in H end.
    split_and!; [done|tauto|].
    intros n p Hin Hnot. apply set_elem_of in Hin as [?|[= -> ->]]; done.
  - split_and!; [|done|done].
    intros (? & ? & ? & ? & ?). rewrite !bool_decide_eq_true_2 in Hguard by done.
    done.
Qed.

(** C10.  Adding, with valid details, a product whose name is already in
    the catalog puts the new record under that name, keeps the keys as they
    were (no second entry, same order), leaves every entry under another
    name where it was, saves the catalog and reports success. *)
Theorem add_product_replaces (data : Catalog) (product_name cat : string)
    (pu de se : Z) (fs : gmap string text) :
  product_name ∈ Dict.keys data ->
  product_name <> "" -> cat <> "Select a Category" ->
  pu > 0 -> de > 0 -> se > 0 ->
  let '(data', fs', shown) :=
    add_product text json_dump data product_name cat pu de se fs in
  Dict.get data' product_name = Some (mkProduct cat pu de se)
  /\ Dict.keys data' = Dict.keys data
  /\ (forall i n p,
        n <> product_name ->
        data' !! i = Some (n, p) <-> data !! i = Some (n, p))
  /\ (forall n, n <> product_name -> Dict.get data' n = Dict.get data n)
  /\ fs' = <[PRODUCTS_FILE := json_dump (catalog_json data')]> fs
  /\ shown = Success ("Product '" +:+ product_name +:+ "' added successfully!").
Proof.
  intros Hin ? ? ? ? ?. unfold add_product.
  rewrite !bool_decide_eq_true_2 by done. simpl.
  split_and!; [apply get_set_eq|by apply set_keys| | |done|done].
  - intros i n p Hne. by apply set_lookup_ne.
  - intros n Hne. by apply get_set_ne.
Qed.

(** C8.  For a non-empty catalog the exporter writes, under the database
    folder, the rows made of the header (the selected columns as given)
    and then one row per product in catalog order, whose cells are the
    product's name under "Product Name", its field under a field name, and
    the empty string under any other column. *)
Theorem csv_export_rows (data : Catalog) (cols : list string)
    (file_name : string) (fs : gmap string text) :
  data <> [] ->
  generate_csv text csv_text (catalog_dicts data) cols file_name fs
  = (Some (path_join DATABASE_FOLDER file_name),
     <[path_join DATABASE_FOLDER file_name :=
         csv_text ((VStr <$> cols)
                   :: ((fun nd => resolve_column nd.1 nd.2 <$> cols) <$> data))]>
       fs).
Proof.
  intros Hne. unfold generate_csv, catalog_dicts.
  destruct data as [|d data']; [done|]. rewrite fmap_cons.
  f_equal. f_equal. f_equal. unfold csv_rows. f_equal.
  rewrite <- fmap_cons, <- list_fmap_compose. apply list_fmap_ext.
  intros i [n p] _. simpl. apply csv_row_product.
Qed.

Lemma csv_rows_hide (cols : list string) (l : Catalog) :
  "purchase_price" ∉ cols ->
  csv_rows (catalog_dicts (hide_purchase_price <$> l)) cols
  = csv_rows (catalog_dicts l) cols.
Proof.
  intros Hnot. unfold csv_rows, catalog_dicts. f_equal.
  rewrite <- !list_fmap_compose. apply list_fmap_ext.
  intros i nd _. simpl. apply (csv_row_hide cols nd Hnot).
Qed.

Lemma user_columns_no_purchase (options picked : list string) :
  options = ["Product Name"; "category"; "dealer_price"; "selling_price"] ->
  "purchase_price" ∉ multiselect options picked.
Proof.
  intros -> H. apply multiselect_offered in H.
  repeat (apply elem_of_cons in H as [H|H]; [discriminate|]).
  inversion H.
Qed.

Lemma catalog_dicts_cons (nd : string * Product) (data : Catalog) :
  catalog_dicts (nd :: data) = (nd.1, product_dict nd.2) :: catalog_dicts data.
Proof. destruct nd. reflexivity. Qed.

Lemma generate_csv_cons (entry : string * dict value) (data : dict (dict value))
    (cols : list string) (file_name : string) (fs : gmap string text) :
  generate_csv text csv_text (entry :: data) cols file_name fs
  = (Some (path_join DATABASE_FOLDER file_name),
     <[path_join DATABASE_FOLDER file_name :=
         csv_text (csv_rows (entry :: data) cols)]> fs).
Proof. reflexivity. Qed.

Lemma user_columns_cons (nd : string * Product) (data : Catalog) :
  user_columns (nd :: data)
  = Ok ["Product Name"; "category"; "dealer_price"; "selling_price"].
Proof. destruct nd. reflexivity. Qed.

Lemma filter_by_category_nil (selected_category : string) :
  filter_by_category [] selected_category = [].
Proof. unfold filter_by_category. destruct (decide _); done. Qed.

(** The outcome of the user page on a selection that is not empty. *)
Lemma csv_generate_user_writes (data : Catalog) (selected_category : string)
    (picked : list string) (fs : gmap string text)
    (m : string * Product) (ms : Catalog) (c : string) (cs : list string) :
  filter_by_category data selected_category = m :: ms ->
  multiselect ["Product Name"; "category"; "dealer_price"; "selling_price"]
    picked = c :: cs ->
  csv_generate_user text csv_text data selected_category picked fs
  = Ok (<["database/output.csv" :=
            csv_text (csv_rows (catalog_dicts (m :: ms)) (c :: cs))]> fs,
        Success "CSV file generated successfully!").
Proof.
  intros Hf Hm. unfold csv_generate_user, csv_page. rewrite Hf.
  destruct data as [|nd data'].
  { rewrite filter_by_category_nil in Hf. done. }
  rewrite user_columns_cons. cbn [bind]. rewrite Hm.
  rewrite catalog_dicts_cons, generate_csv_cons. done.
Qed.

(** The user page cannot tell two catalogs apart that differ in purchase
    prices only. *)
Lemma csv_generate_user_hide (data : Catalog) (selected_category : string)
    (picked : list string) (fs : gmap string text) :
  csv_generate_user text csv_text (hide_purchase_price <$> data)
    selected_category picked fs
  = csv_generate_user text csv_text data selected_category picked fs.
Proof.
  set (options := ["Product Name"; "category"; "dealer_price"; "selling_price"]).
  destruct (filter_by_category data selected_category) as [|m ms] eqn:Hf.
  { unfold csv_generate_user, csv_page.
    rewrite filter_by_category_hide, Hf. done. }
  destruct (multiselect options picked) as [|c cs] eqn:Hm.
  { unfold csv_generate_user, csv_page.
    rewrite filter_by_category_hide, Hf, fmap_cons.
    destruct data as [|nd data'].
    { rewrite filter_by_category_nil in Hf. done. }
    rewrite fmap_cons, !user_columns_cons. cbn [bind].
    fold options. rewrite Hm. done. }
  rewrite (csv_generate_user_writes data _ _ _ m ms c cs Hf Hm).
  rewrite (csv_generate_user_writes _ _ _ _
             (hide_purchase_price m) (hide_purchase_price <$> ms) c cs);
    [|by rewrite filter_by_category_hide, Hf|done].
  rewrite <- fmap_cons, csv_rows_hide; [done|].
  rewrite <- Hm. by apply user_columns_no_purchase.
Qed.

(** C9.  The user page offers no column "purchase_price"; when it writes a
    file, the columns written are free of it, and the outcome is the same
    for two catalogs that differ in purchase prices only.  The admin page
    offers the product name and all four fields, the purchase price among
    them. *)
Theorem user_csv_hides_purchase_price (data : Catalog)
    (selected_category : string) (picked : list string)
    (fs : gmap string text) :
  (forall cols, user_columns data = Ok cols -> "purchase_price" ∉ cols)
  /\ (exists fs' shown,
        csv_generate_user text csv_text data selected_category picked fs
        = Ok (fs', shown)
        /\ (fs' = fs
            \/ exists cols,
                 ("purchase_price" ∉ cols)
                 /\ fs' = <["database/output.csv" :=
                             csv_text
                               (csv_rows
                                  (catalog_dicts
                                     (filter_by_category data selected_category))
                                  cols)]> fs))
  /\ (forall data2,
        hide_purchase_price <$> data2 = hide_purchase_price <$> data ->
        csv_generate_user text csv_text data2 selected_category picked fs
        = csv_generate_user text csv_text data selected_category picked fs)
  /\ (data <> [] ->
      admin_columns data
      = Ok ["Product Name"; "category"; "purchase_price"; "dealer_price";
            "selling_price"]).
Proof.
  split_and!.
  - intros cols Hc. apply user_columns_offered in Hc as ->. intros H.
    repeat (apply elem_of_cons in H as [H|H]; [discriminate|]). inversion H.
  - set (options := ["Product Name"; "category"; "dealer_price"; "selling_price"]).
    destruct (filter_by_category data selected_category) as [|m ms] eqn:Hf.
    { unfold csv_generate_user, csv_page. rewrite Hf. eauto. }
    destruct (multiselect options picked) as [|c cs] eqn:Hm.
    { unfold csv_generate_user, csv_page. rewrite Hf.
      destruct data as [|nd data'].
      { rewrite filter_by_category_nil in Hf. done. }
      rewrite user_columns_cons. cbn [bind]. fold options. rewrite Hm. eauto. }
    rewrite (csv_generate_user_writes data _ _ _ m ms c cs Hf Hm).
    do 2 eexists. split; [reflexivity|]. right. exists (c :: cs).
    split; [|done]. rewrite <- Hm. by apply user_columns_no_purchase.
  - intros data2 Heq.
    rewrite <- (csv_generate_user_hide data2), <- (csv_generate_user_hide data).
    rewrite Heq. done.
  - destruct data as [|[n p] data']; done.
Qed.

(** C6, for a list without repeats.  On a category list without repeated
    entries, deleting one
    of its categories leaves the list without it and otherwise as it was,
    leaves in the catalog exactly the products of another category, in
    their order and unchanged, and saves both: a later [load_data] of the
    two files returns them.  ([json.load] reads back what [json.dump]
    wrote.) *)
Theorem delete_category_cascade (data : Catalog) (categories : list string)
    (selected_category : string) (fs : gmap string text) :
  (forall v, json_load (json_dump v) = Parsed v) ->
  NoDup categories ->
  selected_category ∈ categories ->
  exists data' categories' fs',
    delete_category text json_dump data categories selected_category fs
    = Ok (data', categories', fs',
          Success ("Category '" +:+ selected_category
                   +:+ "' deleted successfully!"))
    /\ (selected_category ∉ categories')
    /\ categories' = filter (fun c => c <> selected_category) categories
    /\ data' = filter (fun kv => category kv.2 <> selected_category) data
    /\ (forall n p,
          (n, p) ∈ data' <-> (n, p) ∈ data /\ category p <> selected_category)
    /\ load_data text json_load fs' PRODUCTS_FILE = Ok (catalog_json data')
    /\ load_categories text json_load fs'
       = Ok (JArr (JStr <$> categories')).
Proof.
  intros Hround Hnd Hin. unfold delete_category.
  destruct categories as [|c0 cs] eqn:Hcats; [inversion Hin|]. rewrite <- Hcats in *.
  destruct (decide (selected_category ∈ categories)); [|done].
  rewrite list_remove_NoDup by done.
  do 3 eexists. split; [reflexivity|]. split_and!.
  - rewrite list_elem_of_filter. intros [? _]. done.
  - done.
  - done.
  - intros n p. rewrite list_elem_of_filter. simpl. tauto.
  - unfold load_data, save_data.
    rewrite lookup_insert_ne by done. rewrite lookup_insert_eq, Hround. done.
  - unfold load_categories, load_data, save_data.
    rewrite lookup_insert_eq, Hround. done.
Qed.

End StoreClaims.

(** * The handlers on a sample shop *)

Section Samples.

Import Sample.

Local Abbreviation sample_search := (search lower upper prefix_ratio).

Lemma category_match_exact_witness :
  (exists n p, (n, p) ∈ shop /\ lower (category p) = lower "stationery")
  /\ sample_search shop "stationery"
     = Ok (CategoryMatch "STATIONERY" [("Red Pen", 5, 8); ("Red Ink", 3, 5)]).
Proof.
  assert (H : exists n p, (n, p) ∈ shop /\ lower (category p) = lower "stationery").
  { exists "Red Pen", red_pen. split; [left|reflexivity]. }
  split; [exact H|].
  destruct (category_match_exact lower upper shop "stationery" H)
    as (rows & Hrows & -> & _).
  exact (Hrows prefix_ratio).
Defined.

Lemma fuzzy_pass_threshold_witness :
  Forall (fun nd => lower (category nd.2) <> lower "Red P") shop
  /\ exists n s pu se, sample_search shop "Red P" = Ok (SingleMatch n s pu se).
Proof.
  assert (H : Forall (fun nd => lower (category nd.2) <> lower "Red P") shop).
  { repeat constructor; by vm_compute. }
  split; [exact H|].
  destruct (fuzzy_pass_threshold lower upper prefix_ratio shop "Red P" H)
    as [[_ Hex] _].
  apply Hex. exists "Red Pen". split; [left|by vm_compute].
Defined.

Lemma single_match_first_maximum_witness :
  sample_search shop "Red P" = Ok (SingleMatch "Red Pen" 83 5 8)
  /\ 83 = Qfloor (prefix_ratio "Red P" "Red Pen").
Proof.
  assert (H : sample_search shop "Red P" = Ok (SingleMatch "Red Pen" 83 5 8))
    by reflexivity.
  split; [exact H|].
  destruct (single_match_first_maximum lower upper prefix_ratio _ _ _ _ _ _ H)
    as ((before & after & _ & _ & Hscore & _) & _).
  exact Hscore.
Defined.

Lemma lookup_never_fails_witness :
  (forall s, lower s = lower "" -> s = "")
  /\ (forall name, (prefix_ratio "" name < 50)%Q)
  /\ query_product_price lower upper strip prefix_ratio [] " pen "
     = Ok (NoMatch no_products_warning)
  /\ exists w,
       query_product_price lower upper strip prefix_ratio shop "   "
       = Ok (NoMatch w).
Proof.
  assert (H1 : forall s, lower s = lower "" -> s = "")
    by (intros [|c s]; [reflexivity|discriminate]).
  assert (H2 : forall name, (prefix_ratio "" name < 50)%Q)
    by (intros name; reflexivity).
  destruct (lookup_never_fails lower upper strip prefix_ratio)
    as (_ & Hempty & Hblank).
  split_and!; [exact H1|exact H2|apply Hempty|].
  apply (Hblank H1 H2 shop "   "); reflexivity.
Defined.

Local Abbreviation sample_load := (load_data document json_load).
Local Abbreviation sample_add := (add_product document JsonText).
Local Abbreviation sample_delete := (delete_category document JsonText).

(** A products file whose bytes cannot be decoded, and one of brackets
    nested too deep: [load_data] raises on both. *)
Lemma load_data_outcomes_witness :
  sample_load ∅ PRODUCTS_FILE = Ok (JObj [])
  /\ sample_load {[PRODUCTS_FILE := Garbled]} PRODUCTS_FILE = Ok (JObj [])
  /\ sample_load {[PRODUCTS_FILE := JsonText (catalog_json shop)]} PRODUCTS_FILE
     = Ok (catalog_json shop)
  /\ sample_load {[PRODUCTS_FILE := Undecodable]} PRODUCTS_FILE
     = Raise UnicodeDecodeError
  /\ sample_load {[PRODUCTS_FILE := DeepBrackets]} PRODUCTS_FILE
     = Raise RecursionError.
Proof.
  split_and!.
  - destruct (load_data_outcomes document json_load ∅ PRODUCTS_FILE)
      as (Hmissing & _).
    apply Hmissing. reflexivity.
  - destruct (load_data_outcomes document json_load
                {[PRODUCTS_FILE := Garbled]} PRODUCTS_FILE)
      as (_ & Hinvalid & _).
    apply (Hinvalid Garbled); reflexivity.
  - destruct (load_data_outcomes document json_load
                {[PRODUCTS_FILE := JsonText (catalog_json shop)]} PRODUCTS_FILE)
      as (_ & _ & Hvalid & _).
    apply (Hvalid (JsonText (catalog_json shop))); reflexivity.
  - destruct (load_data_outcomes document json_load
                {[PRODUCTS_FILE := Undecodable]} PRODUCTS_FILE)
      as (_ & _ & _ & Hraise & _).
    apply (Hraise Undecodable); reflexivity.
  - destruct (load_data_outcomes document json_load
                {[PRODUCTS_FILE := DeepBrackets]} PRODUCTS_FILE)
      as (_ & _ & _ & Hraise & _).
    apply (Hraise DeepBrackets); reflexivity.
Defined.

Lemma add_product_guard_witness :
  let '(data', fs', shown) := sample_add shop "Mug" "Kitchen" 0 12 15 ∅ in
  data' = shop /\ fs' = ∅.
Proof.
  pose proof (add_product_guard document JsonText shop "Mug" "Kitchen" 0 12 15 ∅)
    as H.
  cbv zeta in H.
  destruct (sample_add shop "Mug" "Kitchen" 0 12 15 ∅) as [[data' fs'] shown].
  destruct H as (_ & Hrejected & _).
  destruct Hrejected as (-> & -> & _); [|done].
  intros (_ & _ & Hpositive & _). lia.
Defined.

Lemma add_product_replaces_witness :
  "Red Pen" ∈ Dict.keys shop
  /\ let '(data', fs', shown) := sample_add shop "Red Pen" "Kitchen" 7 8 9 ∅ in
     Dict.get data' "Red Pen" = Some (mkProduct "Kitchen" 7 8 9)
     /\ Dict.keys data' = ["Red Pen"; "Blue Cup"; "Red Ink"].
Proof.
  assert (Hin : "Red Pen" ∈ Dict.keys shop) by left.
  split; [exact Hin|].
  pose proof (add_product_replaces document JsonText shop "Red Pen" "Kitchen"
                7 8 9 ∅ Hin) as H.
  destruct (sample_add shop "Red Pen" "Kitchen" 7 8 9 ∅) as [[data' fs'] shown].
  destruct H as (Hget & Hkeys & _); [done|done|lia|lia|lia|].
  split; [exact Hget|exact Hkeys].
Defined.

Lemma csv_export_rows_witness :
  shop <> []
  /\ generate_csv document CsvText (catalog_dicts shop)
       ["Product Name"; "selling_price"; "colour"] "output.csv" ∅
     = (Some "database/output.csv",
        <["database/output.csv" :=
            CsvText [ [VStr "Product Name"; VStr "selling_price"; VStr "colour"];
                      [VStr "Red Pen"; VInt 8; VStr ""];
                      [VStr "Blue Cup"; VInt 30; VStr ""];
                      [VStr "Red Ink"; VInt 5; VStr ""] ]]> ∅).
Proof.
  assert (Hne : shop <> []) by done.
  split; [exact Hne|].
  exact (csv_export_rows document CsvText shop
           ["Product Name"; "selling_price"; "colour"] "output.csv" ∅ Hne).
Defined.

Lemma user_csv_hides_purchase_price_witness :
  hide_purchase_price <$> shop_repriced = hide_purchase_price <$> shop
  /\ csv_generate_user document CsvText shop_repriced "Stationery"
       ["Product Name"; "purchase_price"; "selling_price"] ∅
     = csv_generate_user document CsvText shop "Stationery"
         ["Product Name"; "purchase_price"; "selling_price"] ∅.
Proof.
  assert (H : hide_purchase_price <$> shop_repriced = hide_purchase_price <$> shop)
    by reflexivity.
  split; [exact H|].
  destruct (user_csv_hides_purchase_price document CsvText shop "Stationery"
              ["Product Name"; "purchase_price"; "selling_price"] ∅)
    as (_ & _ & Hsame & _).
  exact (Hsame shop_repriced H).
Defined.

Lemma delete_category_cascade_witness :
  (forall v, json_load (JsonText v) = Parsed v)
  /\ NoDup ["Kitchen"; "Stationery"]
  /\ "Kitchen" ∈ ["Kitchen"; "Stationery"]
  /\ exists data' categories' fs' shown,
       sample_delete shop ["Kitchen"; "Stationery"] "Kitchen" ∅
       = Ok (data', categories', fs', shown)
       /\ ("Kitchen" ∉ categories')
       /\ sample_load fs' PRODUCTS_FILE = Ok (catalog_json data').
Proof.
  assert (H1 : forall v, json_load (JsonText v) = Parsed v) by reflexivity.
  assert (H2 : NoDup ["Kitchen"; "Stationery"]).
  { apply (bool_decide_unpack _). reflexivity. }
  assert (H3 : "Kitchen" ∈ ["Kitchen"; "Stationery"]) by left.
  split_and!; [exact H1|exact H2|exact H3|].
  destruct (delete_category_cascade document json_load JsonText shop
              ["Kitchen"; "Stationery"] "Kitchen" ∅ H1 H2 H3)
    as (data' & categories' & fs' & Hrun & Hgone & _ & _ & _ & Hread & _).
  exists data', categories', fs'. eauto.
Defined.

(** C6 as stated fails on a list that repeats the category: [remove] drops
    the first occurrence and the category is still listed. *)
Lemma delete_category_keeps_duplicate :
  exists data' categories' fs' shown,
    sample_delete shop ["Kitchen"; "Stationery"; "Kitchen"] "Kitchen" ∅
    = Ok (data', categories', fs', shown)
    /\ "Kitchen" ∈ categories'.
Proof.
  do 4 eexists. split; [reflexivity|]. right. left.
Qed.

(** Two names at the top score: the earlier one is returned. *)
Example search_tie_first :
  fuzzy_matches prefix_ratio (Dict.keys shop) "Red"
  = [("Red Pen", Qmake 600 10); ("Red Ink", Qmake 600 10)]
  /\ sample_search shop "Red" = Ok (SingleMatch "Red Pen" 60 5 8).
Proof. split; reflexivity. Qed.

(** A key "Product Name" in a details dict, which no product has, would
    take the place of the product's name in line 42. *)
Example csv_row_shadowed :
  csv_row ["Product Name"] "Red Pen" [("Product Name", VStr "Pencil")]
  = [VStr "Pencil"].
Proof. reflexivity. Qed.

End Samples.


(** * Further properties *)

(** ** Files *)

Section StoreFacts.

Variable text : Type.
Variable json_load : text -> loaded.
Variable json_dump : json -> text.
Variable csv_text : list (list value) -> text.

Hypothesis json_round_trip : forall v, json_load (json_dump v) = Parsed v.

Lemma load_save_eq (fs : gmap string text) (v : json) (path : string) :
  load_data text json_load (save_data text json_dump v path fs) path = Ok v.
Proof.
  unfold load_data, save_data. rewrite lookup_insert_eq, json_round_trip. done.
Qed.

Lemma load_save_ne (fs : gmap string text) (v : json) (path other : string) :
  other <> path ->
  load_data text json_load (save_data text json_dump v path fs) other
  = load_data text json_load fs other.
Proof.
  intros Hne. unfold load_data, save_data. rewrite lookup_insert_ne by done.
  done.
Qed.

(** X1.  What [save_data] wrote is what [load_data] returns from the same
    path, the last save wins, and the other paths read as before. *)
Theorem save_load_round_trip (fs : gmap string text) (v w : json)
    (path : string) :
  load_data text json_load (save_data text json_dump v path fs) path = Ok v
  /\ save_data text json_dump v path (save_data text json_dump w path fs)
     = save_data text json_dump v path fs
  /\ (forall other,
        other <> path ->
        load_data text json_load (save_data text json_dump v path fs) other
        = load_data text json_load fs other).
Proof.
  split_and!.
  - apply load_save_eq.
  - unfold save_data. apply insert_insert_eq.
  - intros other Hne. by apply load_save_ne.
Qed.

End StoreFacts.

Section CsvFacts.

Variable text : Type.
Variable csv_text : list (list value) -> text.

Lemma filter_by_category_cons_source (data : Catalog) (selected_category : string)
    (m : string * Product) (ms : Catalog) :
  filter_by_category data selected_category = m :: ms -> data <> [].
Proof. intros H ->. rewrite filter_by_category_nil in H. done. Qed.

(** The outcomes of a CSV page whose column list cannot fail. *)
Lemma csv_page_cases (all_columns_of : Catalog -> result (list string))
    (data : Catalog) (selected_category : string) (picked : list string)
    (fs : gmap string text) :
  (forall nd rest, exists cols, all_columns_of (nd :: rest) = Ok cols) ->
  exists fs' shown,
    csv_page text csv_text all_columns_of data selected_category picked fs
    = Ok (fs', shown)
    /\ (fs' = fs
        /\ shown = Info "No products available for the selected category."
        /\ filter_by_category data selected_category = []
        \/ fs' = fs
           /\ shown
              = Error "Please select at least one column to include in the CSV."
        \/ shown = Success "CSV file generated successfully!"
           /\ exists cols,
                cols <> []
                /\ fs' = <["database/output.csv" :=
                            csv_text
                              (csv_rows
                                 (catalog_dicts
                                    (filter_by_category data selected_category))
                                 cols)]> fs)
    /\ (forall path, path <> "database/output.csv" -> fs' !! path = fs !! path).
Proof.
  intros Hcols. unfold csv_page.
  destruct (filter_by_category data selected_category) as [|m ms] eqn:Hf.
  { do 2 eexists. split; [reflexivity|]. split; [left|]; done. }
  destruct data as [|nd rest].
  { rewrite filter_by_category_nil in Hf. done. }
  destruct (Hcols nd rest) as [cols ->]. cbn [bind].
  destruct (multiselect cols picked) as [|c cs] eqn:Hm.
  { do 2 eexists. split; [reflexivity|]. split; [right; left|]; done. }
  rewrite catalog_dicts_cons, generate_csv_cons.
  do 2 eexists. split; [reflexivity|]. split.
  - right. right. split; [done|]. exists (c :: cs). done.
  - intros path Hne. by rewrite lookup_insert_ne.
Qed.

(** X2.  Either CSV page (the admin's when [admin] is true, the user's
    otherwise) ends in one of three ways, and never raises: nothing to
    export, no column selected (no file touched in both cases), or the
    rows of the selected products written to database/output.csv.  It
    never reports a failed generation, and whatever happens every other
    file, the stores among them, is as before. *)
Theorem csv_pages_outcomes (admin : bool) (data : Catalog)
    (selected_category : string) (picked : list string)
    (fs : gmap string text) :
  exists fs' shown,
    (if admin then generate_csv_admin text csv_text
     else csv_generate_user text csv_text)
      data selected_category picked fs
    = Ok (fs', shown)
    /\ (fs' = fs
        /\ shown = Info "No products available for the selected category."
        /\ filter_by_category data selected_category = []
        \/ fs' = fs
           /\ shown
              = Error "Please select at least one column to include in the CSV."
        \/ shown = Success "CSV file generated successfully!"
           /\ exists cols,
                cols <> []
                /\ fs' = <["database/output.csv" :=
                            csv_text
                              (csv_rows
                                 (catalog_dicts
                                    (filter_by_category data selected_category))
                                 cols)]> fs)
    /\ (forall path, path <> "database/output.csv" -> fs' !! path = fs !! path).
Proof.
  destruct admin; apply csv_page_cases; intros [n p] rest; eexists; reflexivity.
Qed.

End CsvFacts.

(** ** Accounts *)

Lemma set_key_in {V} (d : dict V) (k : string) (v : V) :
  k ∈ Dict.keys (Dict.set d k v).
Proof.
  unfold Dict.keys. induction d as [|[k' v'] d IH]; simpl; [left|].
  destruct (decide (k' = k)); simpl; [left|right; done].
Qed.

Section AccountFacts.

Variable text : Type.
Variable json_load : text -> loaded.
Variable json_dump : json -> text.
Variable hash_password : string -> string.

Local Abbreviation users_of fs := (load_data text json_load fs USERS_FILE).
Local Abbreviation authenticate := (authenticate_user text json_load hash_password).
Local Abbreviation sign_up := (signup text json_load json_dump hash_password).
Local Abbreviation default_admin :=
  (create_default_admin text json_load json_dump hash_password).
Local Abbreviation log_in := (login text json_load hash_password).

Lemma equals_str_true (j : json) (s : string) :
  equals_str j s = true <-> j = JStr s.
Proof.
  destruct j; simpl; try (split; [discriminate|done]).
  rewrite bool_decide_eq_true. split; congruence.
Qed.

(** Authentication reads one entry of the user store only. *)
Lemma authenticate_entry (fs1 fs2 : gmap string text)
    (members1 members2 : dict json) (name password : string) :
  users_of fs1 = Ok (JObj members1) -> users_of fs2 = Ok (JObj members2) ->
  Dict.get members1 name = Dict.get members2 name ->
  authenticate fs1 name password = authenticate fs2 name password.
Proof.
  intros H1 H2 Hget. unfold authenticate_user, json_get, Dict.get_default.
  rewrite H1, H2, Hget. done.
Qed.

Lemma authenticate_stored (fs : gmap string text) (members : dict json)
    (name password hashed role : string) :
  users_of fs = Ok (JObj members) ->
  Dict.get members name = Some (user_json hashed role) ->
  authenticate fs name password
  = Done (if decide (hashed = hash_password password)
          then Some (user_json hashed role) else None).
Proof.
  intros Hu Hget. unfold authenticate_user, json_get, Dict.get_default.
  rewrite Hu, Hget. simpl.
  destruct (decide (hashed = hash_password password)) as [->|Hne].
  - rewrite bool_decide_eq_true_2; done.
  - rewrite bool_decide_eq_false_2; done.
Qed.

Lemma authenticate_inv (fs : gmap string text) (name password : string)
    (user : json) :
  authenticate fs name password = Done (Some user) ->
  exists members fields,
    users_of fs = Ok (JObj members)
    /\ Dict.get members name = Some (JObj fields)
    /\ Dict.get fields "password" = Some (JStr (hash_password password))
    /\ user = JObj fields.
Proof.
  unfold authenticate_user, json_get, Dict.get_default.
  destruct (users_of fs) as [[| | | | | |members]|]; try done.
  destruct (Dict.get members name) as [stored|] eqn:Hget; [|done].
  destruct (truthy stored) eqn:Ht; [|done].
  destruct stored as [| | | | | |fields]; try done. simpl.
  destruct (Dict.get fields "password") as [pw|] eqn:Hpw; [|done].
  destruct (equals_str pw (hash_password password)) eqn:He; [|done].
  apply equals_str_true in He as ->. intros [= <-].
  exists members, fields. done.
Qed.

Lemma authenticate_intro (fs : gmap string text) (name password : string)
    (members fields : dict json) :
  users_of fs = Ok (JObj members) ->
  Dict.get members name = Some (JObj fields) ->
  Dict.get fields "password" = Some (JStr (hash_password password)) ->
  authenticate fs name password = Done (Some (JObj fields)).
Proof.
  unfold authenticate_user, json_get, Dict.get_default.
  intros -> -> Hpw.
  assert (truthy (JObj fields) = true) as ->.
  { destruct fields; [done|]. reflexivity. }
  simpl. rewrite Hpw. simpl. rewrite bool_decide_eq_true_2; done.
Qed.

(** X3.  [authenticate_user] returns a user exactly when the user store is
    a dict that holds, under the given name, a dict whose "password" is
    the hash of the given password; the user returned is that dict. *)
Theorem authenticate_accepts_exactly (fs : gmap string text)
    (name password : string) (user : json) :
  authenticate fs name password = Done (Some user) <->
  exists members fields,
    users_of fs = Ok (JObj members)
    /\ Dict.get members name = Some (JObj fields)
    /\ Dict.get fields "password" = Some (JStr (hash_password password))
    /\ user = JObj fields.
Proof.
  split; [apply authenticate_inv|].
  intros (members & fields & Hu & Hget & Hpw & ->).
  by eapply authenticate_intro.
Qed.

(** X8.  A login leaves the session as it was, or marks it authenticated
    under the given name; it does the latter only when the user store
    holds, under that name, a dict whose "password" is the hash of the
    given password.  When that dict has a "role", the session gets it. *)
Theorem login_needs_the_password (fs : gmap string text) (s : session)
    (name password : string) :
  let s' := (log_in fs s name password).1 in
  (s' = s
   \/ authenticated s' = true /\ username s' = Some name
      /\ exists members fields,
           users_of fs = Ok (JObj members)
           /\ Dict.get members name = Some (JObj fields)
           /\ Dict.get fields "password" = Some (JStr (hash_password password))
           /\ (forall user_role,
                 Dict.get fields "role" = Some user_role ->
                 role s' = Some user_role))
  /\ (forall members fields user_role,
        users_of fs = Ok (JObj members) ->
        Dict.get members name = Some (JObj fields) ->
        Dict.get fields "password" = Some (JStr (hash_password password)) ->
        Dict.get fields "role" = Some user_role ->
        log_in fs s name password
        = (mkSession true (Some name) (Some user_role),
           Done (Success ("Welcome, " +:+ name +:+ "!")))).
Proof.
  unfold login. split.
  - destruct (authenticate fs name password) as [[user|]|] eqn:Ha;
      [|left; done|left; done].
    apply authenticate_inv in Ha as (members & fields & Hu & Hget & Hpw & ->).
    destruct (truthy (JObj fields)); [|left; done]. right. simpl.
    destruct (Dict.get fields "role") as [user_role|] eqn:Hrole; simpl.
    + split_and!; [done|done|]. exists members, fields.
      split_and!; [done|done|done|]. congruence.
    + split_and!; [done|done|]. exists members, fields.
      split_and!; [done|done|done|]. intros user_role. congruence.
  - intros members fields user_role Hu Hget Hpw Hrole.
    rewrite (authenticate_intro _ _ _ _ _ Hu Hget Hpw).
    assert (truthy (JObj fields) = true) as ->.
    { destruct fields; [done|]. reflexivity. }
    simpl. rewrite Hrole. done.
Qed.

Hypothesis json_round_trip : forall v, json_load (json_dump v) = Parsed v.

(** X4.  On a user store that is a dict without the name (the empty dict
    of a missing file included), [signup] succeeds, and afterwards the
    name authenticates with the password it was given, as the stored
    record with the given role, and with no password of another hash. *)
Theorem signup_then_authenticate (fs : gmap string text) (members : dict json)
    (name password role : string) :
  users_of fs = Ok (JObj members) ->
  name ∉ Dict.keys members ->
  exists fs',
    sign_up fs name password role
    = Done (fs', (true, "User created successfully!"))
    /\ authenticate fs' name password
       = Done (Some (user_json (hash_password password) role))
    /\ (forall other,
          hash_password other <> hash_password password ->
          authenticate fs' name other = Done None).
Proof.
  intros Hu Hfresh. unfold signup. rewrite Hu. simpl.
  rewrite bool_decide_eq_false_2 by done.
  eexists. split; [reflexivity|].
  set (fs' := save_data _ _ _ _ _).
  assert (Hu' : users_of fs'
                = Ok (JObj (Dict.set members name
                              (user_json (hash_password password) role))))
    by apply (load_save_eq _ _ _ json_round_trip).
  split.
  - rewrite (authenticate_stored _ _ _ _ _ _ Hu' (get_set_eq _ _ _)).
    destruct (decide _); done.
  - intros other Hne.
    rewrite (authenticate_stored _ _ _ _ _ _ Hu' (get_set_eq _ _ _)).
    destruct (decide _); congruence.
Qed.

(** X5.  [signup] never touches an account that exists: every name already
    in the store authenticates afterwards as it did before, whether the
    call created an account or refused to; it writes no file but the user
    store; and on a user store that is not a dict it writes nothing. *)
Theorem signup_keeps_accounts (fs fs' : gmap string text)
    (name password role : string) (answer : bool * string) :
  sign_up fs name password role = Done (fs', answer) ->
  (forall members existing attempt,
     users_of fs = Ok (JObj members) ->
     existing ∈ Dict.keys members ->
     authenticate fs' existing attempt = authenticate fs existing attempt)
  /\ (forall path, path <> USERS_FILE -> fs' !! path = fs !! path)
  /\ ((forall members, users_of fs <> Ok (JObj members)) -> fs' = fs).
Proof.
  unfold signup. destruct (users_of fs) as [users|e] eqn:Hu; [|done].
  destruct (json_in name users) as [[|]|] eqn:Hin; [| |done].
  { intros [= <- <-]. done. }
  destruct users as [| | | | | |members]; try done.
  intros [= <- <-]. simpl in Hin. injection Hin as Hin.
  apply bool_decide_eq_false in Hin. split_and!.
  - intros members' existing attempt [= <-] Hex.
    eapply authenticate_entry;
      [apply (load_save_eq _ _ _ json_round_trip)|exact Hu|].
    apply get_set_ne. intros ->. done.
  - intros path Hne. unfold save_data. by rewrite lookup_insert_ne.
  - intros Hnot. by destruct (Hnot members).
Qed.

(** X6.  When the user store can be loaded (no file, a file that is not
    JSON, or any JSON value), [create_default_admin] leaves a user store
    that is a dict with an "Admin" entry, and running it again changes
    nothing; if there was no such entry, the name "Admin" then
    authenticates with the password "1234", with the role "Admin".  When
    [json.load] raises on the user store anything but [JSONDecodeError],
    [create_default_admin] raises the same and repairs nothing, and so
    does every authentication. *)
Theorem default_admin_installed (fs : gmap string text) :
  (forall stored,
     users_of fs = Ok stored ->
     exists fs' members,
       default_admin fs = Ok fs'
       /\ users_of fs' = Ok (JObj members)
       /\ "Admin" ∈ Dict.keys members
       /\ default_admin fs' = Ok fs'
       /\ ((forall old, stored = JObj old -> "Admin" ∉ Dict.keys old) ->
           authenticate fs' "Admin" "1234"
           = Done (Some (user_json (hash_password "1234") "Admin"))))
  /\ (forall e,
        users_of fs = Raise e ->
        default_admin fs = Raise e
        /\ forall name password,
             authenticate fs name password = Failed (Standard e)).
Proof.
  split.
  - intros stored Hu. unfold create_default_admin at 1. rewrite Hu. cbn [bind].
    set (users := match stored with JObj members => members | _ => [] end).
    destruct (decide ("Admin" ∈ Dict.keys users)) as [Hold|Hnew].
    + assert (stored = JObj users) as Hs.
      { subst users. destruct stored; (by inversion Hold) || reflexivity. }
      exists fs, users. rewrite <- Hs. split_and!; [done|done|done| |].
      * unfold create_default_admin. rewrite Hu. cbn [bind]. fold users.
        destruct (decide _); done.
      * intros Hfresh. destruct (Hfresh users Hs Hold).
    + set (fs' := save_data _ _ _ _ _).
      assert (Hu' : users_of fs'
                    = Ok (JObj (Dict.set users "Admin"
                                  (user_json (hash_password "1234") "Admin"))))
        by apply (load_save_eq _ _ _ json_round_trip).
      exists fs'. eexists. split_and!; [done|exact Hu'|apply set_key_in| |].
      * unfold create_default_admin. rewrite Hu'. cbn [bind].
        destruct (decide _) as [_|Hno]; [done|].
        destruct Hno. apply set_key_in.
      * intros _.
        rewrite (authenticate_stored _ _ _ _ _ _ Hu' (get_set_eq _ _ _)).
        destruct (decide _); done.
  - intros e Hu. split.
    + unfold create_default_admin. rewrite Hu. done.
    + intros name password. unfold authenticate_user. rewrite Hu. done.
Qed.

(** X7.  [create_default_admin] keeps the accounts of a user store that is
    a dict: every name in it, an existing "Admin" among them,
    authenticates afterwards as before (an existing administrator's
    password is not reset), and no other file is written. *)
Theorem default_admin_keeps_accounts (fs : gmap string text)
    (members : dict json) :
  users_of fs = Ok (JObj members) ->
  exists fs',
    default_admin fs = Ok fs'
    /\ (forall existing attempt,
          existing ∈ Dict.keys members ->
          authenticate fs' existing attempt = authenticate fs existing attempt)
    /\ (forall path, path <> USERS_FILE -> fs' !! path = fs !! path).
Proof.
  intros Hu. unfold create_default_admin. rewrite Hu. cbn [bind].
  destruct (decide ("Admin" ∈ Dict.keys members)) as [Hold|Hnew]; [eauto|].
  eexists. split; [reflexivity|]. split.
  - intros existing attempt Hex.
    eapply authenticate_entry;
      [apply (load_save_eq _ _ _ json_round_trip)|exact Hu|].
    apply get_set_ne. intros ->. done.
  - intros path Hne. unfold save_data. by rewrite lookup_insert_ne.
Qed.

(** X9.  An account created by [signup] can log in at once: the login
    with the same password marks a fresh session authenticated under the
    name, with the role given at creation, and the sidebar then offers the
    administrator's menu exactly when that role is "Admin". *)
Theorem signup_then_login (fs : gmap string text) (members : dict json)
    (name password given_role : string) :
  users_of fs = Ok (JObj members) ->
  name ∉ Dict.keys members ->
  exists fs' s',
    sign_up fs name password given_role
    = Done (fs', (true, "User created successfully!"))
    /\ log_in fs' fresh_session name password
       = (s', Done (Success ("Welcome, " +:+ name +:+ "!")))
    /\ s' = mkSession true (Some name) (Some (JStr given_role))
    /\ (given_role = "Admin" ->
        menu_options (role s')
        = ["Add New Product"; "Update Product"; "View All Products";
           "Manage Categories"; "Generate CSV"; "User Management"])
    /\ (given_role <> "Admin" ->
        menu_options (role s') = ["All Products"; "CSV Generate"]).
Proof.
  intros Hu Hfresh. unfold signup. rewrite Hu. simpl.
  rewrite bool_decide_eq_false_2 by done.
  do 2 eexists. split; [reflexivity|].
  set (fs' := save_data _ _ _ _ _).
  assert (Hu' : users_of fs'
                = Ok (JObj (Dict.set members name
                              (user_json (hash_password password) given_role))))
    by apply (load_save_eq _ _ _ json_round_trip).
  unfold login.
  rewrite (authenticate_stored _ _ _ _ _ _ Hu' (get_set_eq _ _ _)).
  destruct (decide _); [|done]. simpl.
  split_and!; [reflexivity|reflexivity| |].
  - intros ->. reflexivity.
  - intros Hne. unfold menu_options. simpl.
    rewrite bool_decide_eq_false_2; done.
Qed.

End AccountFacts.

(** ** The sidebar and the dispatch *)

Lemma is_admin_true (r : option json) :
  is_admin r = true <-> r = Some (JStr "Admin").
Proof.
  destruct r as [j|]; simpl; [|split; done].
  destruct j; simpl; try (split; [discriminate|done]).
  rewrite bool_decide_eq_true. split; congruence.
Qed.

(** X10.  A session whose role is not "Admin" reaches, whatever the menu
    choice is, no page but the lookup, the user's CSV page and the user's
    product table: the pages that add, update, list with purchase prices,
    manage categories, export all columns or create users are closed to
    it. *)
Theorem admin_pages_need_admin (main_menu_choice : string) (r : option json) :
  r <> Some (JStr "Admin") ->
  dispatch main_menu_choice r
  ∈ [QueryProductPrice; CsvGenerate; AllProducts; NoPage].
Proof.
  intros Hr. assert (is_admin r = false) as Hna.
  { destruct (is_admin r) eqn:H; [|done]. apply is_admin_true in H. done. }
  unfold dispatch. rewrite Hna, !andb_false_r.
  repeat case_decide; set_solver.
Qed.

(** X11.  Every choice the sidebar offers leads to a page, the one of the
    same name; the lookup page of lines 150-189 is not among them, for
    any role. *)
Theorem menu_choice_page (main_menu_choice : string) (r : option json) :
  main_menu_choice ∈ menu_options r ->
  dispatch main_menu_choice r <> QueryProductPrice
  /\ (main_menu_choice, dispatch main_menu_choice r)
     ∈ (if is_admin r
        then [("Add New Product", AddNewProduct);
              ("Update Product", UpdateProduct);
              ("View All Products", ViewAllProducts);
              ("Manage Categories", ManageCategories);
              ("Generate CSV", GenerateCsv);
              ("User Management", UserManagement)]
        else [("All Products", AllProducts); ("CSV Generate", CsvGenerate)]).
Proof.
  unfold menu_options, dispatch. destruct (is_admin r); intros Hin;
    repeat (apply elem_of_cons in Hin as [->|Hin]; [simpl; split; [done|set_solver]|]);
    inversion Hin.
Qed.


(** ** The product tables *)

Lemma total_pages_bounds (n : nat) :
  (n <= total_pages n * page_size
   /\ (0 < n -> (total_pages n - 1) * page_size < n))%nat.
Proof.
  unfold total_pages, page_size.
  pose proof (Nat.div_mod_eq n 10) as Hdm.
  pose proof (Nat.mod_upper_bound n 10) as Hub.
  destruct (0 <? n mod 10)%nat eqn:Hlt.
  - apply Nat.ltb_lt in Hlt. lia.
  - apply Nat.ltb_ge in Hlt. lia.
Qed.

Lemma page_rows_take_drop {A} (rows : list A) (p : nat) :
  page_rows rows p = take page_size (drop ((p - 1) * page_size) rows).
Proof. unfold page_rows, slice. f_equal. lia. Qed.

Lemma pages_concat {A} (rows : list A) (k : nat) :
  concat (page_rows rows <$> seq 1 k) = take (k * page_size) rows.
Proof.
  induction k as [|k IH]; [done|].
  rewrite seq_S, fmap_app, concat_app, IH.
  change (concat (page_rows rows <$> [(1 + k)%nat]))
    with (page_rows rows (1 + k) ++ []).
  rewrite app_nil_r, page_rows_take_drop.
  replace ((1 + k - 1) * page_size)%nat with (k * page_size)%nat by lia.
  rewrite take_take_drop. f_equal. unfold page_size. lia.
Qed.

(** X12.  The pages 1 to [total_pages], one after the other, are the rows
    of the table: pagination loses no row, repeats none and keeps the
    order. *)
Theorem pages_cover_rows {A} (rows : list A) :
  concat (page_rows rows <$> seq 1 (total_pages (length rows))) = rows.
Proof.
  rewrite pages_concat. apply take_ge. apply total_pages_bounds.
Qed.

(** X13.  A page the slider can select has between 1 and 10 rows, and 10
    when it is not the last; a page past the last is empty. *)
Theorem page_sizes {A} (rows : list A) (p : nat) :
  ((1 <= p <= total_pages (length rows) ->
    1 <= length (page_rows rows p) <= page_size
    /\ (p < total_pages (length rows) ->
        length (page_rows rows p) = page_size))
   /\ (total_pages (length rows) < p -> page_rows rows p = []))%nat.
Proof.
  rewrite page_rows_take_drop.
  pose proof (total_pages_bounds (length rows)) as [Hup Hlow].
  unfold page_size in *. split.
  - intros [H1 Hp]. rewrite length_take, length_drop.
    assert (0 < length rows)%nat by (destruct rows; simpl in *; [|lia];
      unfold total_pages in Hp; simpl in Hp; lia).
    specialize (Hlow ltac:(done)). split; [nia|]. intros Hlt. nia.
  - intros Hp. rewrite drop_ge; [by destruct page_size|]. nia.
Qed.

Lemma products_page_cons (product_info : string * Product -> dict value)
    (data : Catalog) (selected_category : string) (slider_page : nat)
    (m : string * Product) (ms : Catalog) :
  filter_by_category data selected_category = m :: ms ->
  products_page product_info data selected_category slider_page
  = Dataframe
      (page_rows (product_info <$> m :: ms)
         (if (1 <? total_pages (length (product_info <$> m :: ms)))%nat
          then slider_page else 1%nat)).
Proof. intros H. unfold products_page. rewrite H. done. Qed.

Lemma all_products_hide (data : Catalog) (selected_category : string)
    (slider_page : nat) :
  all_products (hide_purchase_price <$> data) selected_category slider_page
  = all_products data selected_category slider_page.
Proof.
  unfold all_products.
  destruct (filter_by_category data selected_category) as [|m ms] eqn:Hf.
  { unfold products_page. rewrite filter_by_category_hide, Hf. done. }
  rewrite (products_page_cons _ data _ _ m ms Hf).
  rewrite (products_page_cons _ _ _ _ (hide_purchase_price m)
             (hide_purchase_price <$> ms))
    by (by rewrite filter_by_category_hide, Hf).
  rewrite <- (fmap_cons hide_purchase_price), <- list_fmap_compose.
  done.
Qed.

(** X14.  The user's product table has no "Purchase Price" column and
    shows the same for two catalogs that differ in purchase prices only;
    every row of the admin's table carries the purchase price of a
    product of the catalog. *)
Theorem user_table_hides_purchase_price (data : Catalog)
    (selected_category : string) (slider_page : nat) :
  (forall rows row,
     all_products data selected_category slider_page = Dataframe rows ->
     row ∈ rows ->
     Dict.keys row = ["Product Name"; "Category"; "Dealer Price"; "Selling Price"])
  /\ (forall data2,
        hide_purchase_price <$> data2 = hide_purchase_price <$> data ->
        all_products data2 selected_category slider_page
        = all_products data selected_category slider_page)
  /\ (forall rows row,
        view_all_products data selected_category slider_page = Dataframe rows ->
        row ∈ rows ->
        exists n p,
          (n, p) ∈ data
          /\ Dict.get row "Product Name" = Some (VStr n)
          /\ Dict.get row "Purchase Price" = Some (VInt (purchase_price p))).
Proof.
  assert (Hsub : forall (info : string * Product -> dict value) rows row,
            products_page info data selected_category slider_page = Dataframe rows ->
            row ∈ rows ->
            exists nd, nd ∈ data /\ row = info nd).
  { intros info rows row. unfold products_page.
    destruct (filter_by_category data selected_category) as [|m ms] eqn:Hf;
      [done|].
    intros [= <-] Hrow. rewrite page_rows_take_drop in Hrow.
    apply subseteq_take, subseteq_drop in Hrow.
    change (row ∈ info <$> m :: ms) in Hrow.
    apply list_elem_of_fmap in Hrow as (nd & -> & Hnd).
    exists nd. split; [|done]. rewrite <- Hf in Hnd.
    unfold filter_by_category in Hnd. destruct (decide _); [done|].
    by apply list_elem_of_filter in Hnd as [_ ?]. }
  split_and!.
  - intros rows row Hv Hrow.
    destruct (Hsub _ _ _ Hv Hrow) as (nd & _ & ->). done.
  - intros data2 Heq.
    rewrite <- (all_products_hide data2), <- (all_products_hide data), Heq.
    done.
  - intros rows row Hv Hrow.
    destruct (Hsub _ _ _ Hv Hrow) as ([n p] & Hnd & ->). exists n, p. done.
Qed.

(** ** Editing the catalog and the categories *)

Lemma get_Some_elem_of {V} (d : dict V) (k : string) (v : V) :
  Dict.get d k = Some v -> (k, v) ∈ d.
Proof.
  induction d as [|[k' v'] d IH]; simpl; [discriminate|].
  destruct (decide (k' = k)) as [->|].
  - intros [= ->]. left.
  - intros H. right. auto.
Qed.

Lemma elem_of_keys {V} (d : dict V) (k : string) (v : V) :
  (k, v) ∈ d -> k ∈ Dict.keys d.
Proof.
  intros H. unfold Dict.keys. apply list_elem_of_fmap. exists (k, v). done.
Qed.

Lemma set_keys_fresh {V} (d : dict V) (k : string) (v : V) :
  k ∉ Dict.keys d -> Dict.keys (Dict.set d k v) = Dict.keys d ++ [k].
Proof.
  unfold Dict.keys. induction d as [|[k' v'] d IH]; simpl; [done|].
  intros H. apply not_elem_of_cons in H as [? ?].
  destruct (decide (k' = k)); [congruence|]. simpl. f_equal. auto.
Qed.

Lemma set_keys_NoDup {V} (d : dict V) (k : string) (v : V) :
  NoDup (Dict.keys d) -> NoDup (Dict.keys (Dict.set d k v)).
Proof.
  intros Hnd. destruct (decide (k ∈ Dict.keys d)) as [Hin|Hout].
  - by rewrite set_keys.
  - rewrite set_keys_fresh by done. apply NoDup_app. split_and!; [done| |].
    + intros x Hx Hk. apply list_elem_of_singleton in Hk as ->. done.
    + apply NoDup_singleton.
Qed.

Lemma filter_all {A} (P : A -> Prop) `{!forall x, Decision (P x)}
    (l : list A) :
  Forall P l -> filter P l = l.
Proof.
  induction 1 as [|x l Hx Hl IH]; [done|].
  rewrite filter_cons_True by done. by f_equal.
Qed.

Lemma filter_keys_NoDup {V} (P : string * V -> Prop)
    `{!forall x, Decision (P x)} (d : list (string * V)) :
  NoDup (Dict.keys d) -> NoDup (Dict.keys (filter P d)).
Proof.
  unfold Dict.keys. induction d as [|[k v] d IH]; [done|].
  rewrite fmap_cons. intros Hdup. apply NoDup_cons in Hdup as [Hk Hnd].
  rewrite filter_cons.
  destruct (decide (P (k, v))); [|auto].
  rewrite fmap_cons. apply NoDup_cons. split; [|auto].
  intros Hin. apply Hk.
  apply list_elem_of_fmap in Hin as ([k' v'] & Heq & Hin').
  simpl in Heq. subst k'. apply list_elem_of_filter in Hin' as [_ Hin'].
  apply list_elem_of_fmap. by exists (k, v').
Qed.

Lemma list_remove_last (x : string) (l : list string) :
  x ∉ l -> list_remove x (l ++ [x]) = Some l.
Proof.
  induction l as [|y l IH]; simpl.
  - intros _. destruct (decide (x = x)); done.
  - intros H. apply not_elem_of_cons in H as [? ?].
    destruct (decide (y = x)); [congruence|]. rewrite IH by done. done.
Qed.

Lemma list_remove_Some_elem (x : string) (l : list string) :
  x ∈ l -> is_Some (list_remove x l).
Proof.
  induction l as [|y l IH]; simpl; [intros H; inversion H|].
  intros H. destruct (decide (y = x)); [eauto|].
  apply elem_of_cons in H as [->|H]; [done|].
  destruct (IH H) as [l' ->]. eauto.
Qed.

Section EditingFacts.

Variable text : Type.
Variable json_load : text -> loaded.
Variable json_dump : json -> text.

(** X15.  The update page stores the record it is given under the
    selected product, whatever the new category and the new prices are
    (nothing is validated), keeps the keys and the other entries, and
    saves the catalog. *)
Theorem update_product_replaces (data : Catalog)
    (selected_product new_category : string) (p : Product)
    (np nd ns : Z) (fs : gmap string text) :
  (selected_product, p) ∈ data ->
  selected_product <> "" -> category p <> "" ->
  exists data',
    update_product text json_dump data (category p) selected_product
      new_category np nd ns fs
    = Ok (data', <[PRODUCTS_FILE := json_dump (catalog_json data')]> fs,
          Some (Success ("Product '" +:+ selected_product
                         +:+ "' has been updated!")))
    /\ Dict.get data' selected_product = Some (mkProduct new_category np nd ns)
    /\ Dict.keys data' = Dict.keys data
    /\ (forall n, n <> selected_product -> Dict.get data' n = Dict.get data n).
Proof.
  intros Hin Hname Hcat. unfold update_product.
  destruct (decide (category p = "")); [done|].
  assert (Hf : (selected_product, p)
               ∈ filter (fun nd => category nd.2 = category p) data)
    by (apply list_elem_of_filter; done).
  destruct (filter _ data) as [|m ms]; [inversion Hf|].
  destruct (decide (selected_product = "")); [done|].
  pose proof (elem_of_keys _ _ _ Hin) as Hkey.
  destruct (get_is_Some _ _ Hkey) as [old ->].
  eexists. split; [reflexivity|]. split_and!.
  - apply get_set_eq.
  - by apply set_keys.
  - intros other Hother. by apply get_set_ne.
Qed.

(** X16.  Adding a category that is not empty and not yet listed puts it
    last in the list and saves the list; deleting it right away gives the
    list back, removes the products filed under it and leaves the catalog
    as it is when there are none.  Any other addition changes neither the
    list nor the files. *)
Theorem add_then_delete_category (data : Catalog) (categories : list string)
    (new_category : string) (fs : gmap string text) :
  let '(categories1, fs1, shown1) :=
    add_category text json_dump categories new_category fs in
  (new_category <> "" -> new_category ∉ categories ->
   categories1 = categories ++ [new_category]
   /\ fs1 = <[CATEGORIES_FILE := json_dump (categories_json categories1)]> fs
   /\ exists fs2 shown2,
        delete_category text json_dump data categories1 new_category fs1
        = Ok (filter (fun kv => category kv.2 <> new_category) data,
              categories, fs2, shown2)
        /\ fs2 !! CATEGORIES_FILE = Some (json_dump (categories_json categories))
        /\ (Forall (fun kv => category kv.2 <> new_category) data ->
            filter (fun kv => category kv.2 <> new_category) data = data))
  /\ (new_category = "" \/ new_category ∈ categories ->
      categories1 = categories /\ fs1 = fs
      /\ shown1 = if decide (new_category ∈ categories)
                  then Warning "Category already exists!"
                  else Error "Please enter a valid category name.").
Proof.
  unfold add_category.
  destruct (bool_decide (new_category <> "")
            && bool_decide (new_category ∉ categories)) eqn:Hguard.
  - apply andb_prop in Hguard as [H1 H2].
    apply bool_decide_eq_true in H1, H2. split; [|intros [?|?]; done].
    intros _ _. split_and!; [done|done|].
    unfold delete_category.
    destruct (categories ++ [new_category]) as [|c cs] eqn:Happ.
    { destruct categories; done. }
    rewrite <- Happ.
    destruct (decide (new_category ∈ categories ++ [new_category])) as [_|Hno].
    2:{ destruct Hno. apply elem_of_app. right. left. }
    rewrite list_remove_last by done.
    do 2 eexists. split; [reflexivity|]. split.
    + unfold save_data. apply lookup_insert_eq.
    + apply filter_all.
  - destruct (decide (new_category ∈ categories)); (split; [|done]);
      intros H1 H2; rewrite !bool_decide_eq_true_2 in Hguard by done; done.
Qed.

(** X17.  The pages that add a product, add a category and delete a
    category keep the consistency of catalog and categories: distinct
    product names, distinct categories, every product in a listed category
    and with three positive prices.  (The category of the add page comes
    from its select box.) *)
Theorem editing_keeps_consistency (data : Catalog) (categories : list string) :
  consistent data categories ->
  (forall product_name cat pu de se fs,
     cat ∈ "Select a Category" :: categories ->
     consistent
       (add_product text json_dump data product_name cat pu de se fs).1.1
       categories)
  /\ (forall new_category fs,
        consistent data
          (add_category text json_dump categories new_category fs).1.1)
  /\ (forall selected_category fs data' categories' fs' shown,
        delete_category text json_dump data categories selected_category fs
        = Ok (data', categories', fs', shown) ->
        consistent data' categories').
Proof.
  intros (Hkeys & Hcats & Hall). split_and!.
  - intros product_name cat pu de se fs Hcat. unfold add_product.
    destruct (_ && _) eqn:Hguard; [|done]. simpl.
    repeat (apply andb_prop in Hguard as [Hguard ?]).
    repeat match goal with H : bool_decide _ = true |- _ =>
      apply bool_decide_eq_true in H end.
    apply elem_of_cons in Hcat as [->|Hcat]; [done|].
    split_and!; [by apply set_keys_NoDup|done|].
    apply Forall_forall. intros nd Hnd.
    apply set_elem_of in Hnd as [Hnd| ->].
    + by apply (proj1 (Forall_forall _ _) Hall).
    + simpl. split_and!; [done|lia|lia|lia].
  - intros new_category fs. unfold add_category.
    destruct (_ && _) eqn:Hguard; simpl.
    + apply andb_prop in Hguard as [H1 H2].
      apply bool_decide_eq_true in H1, H2.
      split_and!; [done| |].
      * apply NoDup_app. split_and!; [done| |apply NoDup_singleton].
        intros x Hx Hk. apply list_elem_of_singleton in Hk as ->. done.
      * eapply Forall_impl; [exact Hall|]. simpl. intros nd (? & ? & ? & ?).
        split_and!; [|done|done|done]. apply elem_of_app. by left.
    + destruct (decide _); done.
  - intros selected_category fs data' categories' fs' shown.
    unfold delete_category.
    destruct categories as [|c0 cs] eqn:Hc; [intros [= <- <- <- <-]; done|].
    rewrite <- Hc in *.
    destruct (decide (selected_category ∈ categories)) as [Hin|Hout];
      [|intros [= <- <- <- <-]; done].
    rewrite list_remove_NoDup by done. intros [= <- <- <- <-].
    split_and!.
    + by apply filter_keys_NoDup.
    + by apply NoDup_filter.
    + apply Forall_forall. intros nd Hnd.
      apply list_elem_of_filter in Hnd as [Hne Hnd].
      destruct (proj1 (Forall_forall _ _) Hall nd Hnd) as (? & ? & ? & ?).
      split_and!; [|done|done|done]. apply list_elem_of_filter. done.
Qed.

(** X18.  The update page does not keep that consistency: from any
    state, a consistent one included, an update to a category that is not
    listed, or with a price that is not positive (the inputs accept 0),
    goes through and leaves a state that is not consistent. *)
Theorem update_breaks_consistency (data : Catalog) (categories : list string)
    (selected_product new_category : string) (p : Product)
    (np nd ns : Z) (fs : gmap string text) :
  (selected_product, p) ∈ data ->
  selected_product <> "" -> category p <> "" ->
  new_category ∉ categories \/ np <= 0 \/ nd <= 0 \/ ns <= 0 ->
  exists data' fs' shown,
    update_product text json_dump data (category p) selected_product
      new_category np nd ns fs
    = Ok (data', fs', Some (Success shown))
    /\ ~ consistent data' categories.
Proof.
  intros Hin Hname Hcat Hbad. unfold update_product.
  destruct (decide (category p = "")); [done|].
  assert (Hf : (selected_product, p)
               ∈ filter (fun nd => category nd.2 = category p) data)
    by (apply list_elem_of_filter; done).
  destruct (filter _ data) as [|m ms]; [inversion Hf|].
  destruct (decide (selected_product = "")); [done|].
  pose proof (elem_of_keys _ _ _ Hin) as Hkey.
  destruct (get_is_Some _ _ Hkey) as [old ->].
  do 3 eexists. split; [reflexivity|].
  intros (_ & _ & Hall).
  pose proof (get_Some_elem_of _ _ _
                (get_set_eq data selected_product
                   (mkProduct new_category np nd ns))) as Hnew.
  destruct (proj1 (Forall_forall _ _) Hall _ Hnew) as (? & ? & ? & ?).
  simpl in *. destruct Hbad as [?|[?|[?|?]]]; [done|lia|lia|lia].
Qed.

End EditingFacts.

(** ** The greeting *)

Lemma contains_at_cons (c : ascii) (s : string) :
  contains "@" (String c s) = if decide (c = "@"%char) then true else contains "@" s.
Proof.
  destruct (decide (c = "@"%char)) as [->|Hne].
  - destruct s; reflexivity.
  - cbn [contains String.prefix].
    destruct (Ascii.ascii_dec "@" c); [congruence|done].
Qed.

(** X19.  [format_username] returns the name up to its first "@": the
    result has no "@", a name without "@" is returned as it is, and the
    name is the result followed by nothing or by text that starts with
    "@". *)
Theorem format_username_cuts_at (name : string) :
  contains "@" (format_username name) = false
  /\ (contains "@" name = false -> format_username name = name)
  /\ exists rest,
       name = format_username name +:+ rest
       /\ (rest = "" \/ exists tail, rest = String "@" tail).
Proof.
  unfold format_username.
  assert (Hno : contains "@" (before_at name) = false).
  { induction name as [|c s IH]; [done|]. simpl before_at.
    destruct (decide (c = "@"%char)); [done|].
    rewrite contains_at_cons. destruct (decide (c = "@"%char)); done. }
  assert (Hsplit : exists rest,
             name = before_at name +:+ rest
             /\ (rest = "" \/ exists tail, rest = String "@" tail)).
  { induction name as [|c s IH]; [exists ""; split; [done|by left]|].
    simpl before_at. destruct (decide (c = "@"%char)) as [->|Hne].
    - exists (String "@" s). split; [done|]. right. eauto.
    - destruct IH as (rest & Heq & Hrest).
      { clear -Hno Hne. simpl before_at in Hno.
        destruct (decide (c = "@"%char)); [done|].
        rewrite contains_at_cons in Hno.
        destruct (decide (c = "@"%char)); done. }
      exists rest. split; [|done].
      change (String c s = String c (before_at s +:+ rest)). by f_equal. }
  destruct (contains "@" name) eqn:Hc.
  - split_and!; [done|done|done].
  - split_and!; [done|done|]. exists "". split; [|by left].
    clear. induction name as [|c s IH]; [done|].
    change (String c s = String c (s +:+ "")). by f_equal.
Qed.

(** ** More on adding and deleting *)

Lemma set_fresh {V} (d : dict V) (k : string) (v : V) :
  k ∉ Dict.keys d -> Dict.set d k v = d ++ [(k, v)].
Proof.
  unfold Dict.keys. induction d as [|[k' v'] d IH]; simpl; [done|].
  intros H. apply not_elem_of_cons in H as [? ?].
  destruct (decide (k' = k)); [congruence|]. f_equal. auto.
Qed.

Lemma list_remove_perm (x : string) (l l' : list string) :
  list_remove x l = Some l' -> l ≡ₚ x :: l'.
Proof.
  revert l'. induction l as [|y l IH]; intros l'; simpl; [done|].
  destruct (decide (y = x)) as [->|Hne]; [by intros [= ->]|].
  destruct (list_remove x l) as [l0|]; [|done]. simpl. intros [= <-].
  rewrite (IH l0 eq_refl). apply Permutation_swap.
Qed.

Section AddDeleteFacts.

Variable text : Type.
Variable json_dump : json -> text.
Variables lower upper : string -> string.
Variable token_set_ratio : string -> string -> Q.

(** X20.  Deleting a category never raises, on any list.  For a listed
    category it takes one occurrence out of the list (the list is the
    deleted category and what stays, in some order) and no product of the
    catalog is left in that category; for a category that is not listed
    it changes nothing. *)
Theorem delete_category_total (data : Catalog) (categories : list string)
    (selected_category : string) (fs : gmap string text) :
  exists data' categories' fs' shown,
    delete_category text json_dump data categories selected_category fs
    = Ok (data', categories', fs', shown)
    /\ (selected_category ∈ categories ->
        categories ≡ₚ selected_category :: categories'
        /\ Forall (fun nd => category nd.2 <> selected_category) data'
        /\ data' = filter (fun nd => category nd.2 <> selected_category) data)
    /\ (selected_category ∉ categories ->
        data' = data /\ categories' = categories /\ fs' = fs).
Proof.
  unfold delete_category.
  destruct categories as [|c0 cs] eqn:Hc.
  { do 4 eexists. split; [reflexivity|]. split; [intros H; inversion H|done]. }
  rewrite <- Hc.
  destruct (decide (selected_category ∈ categories)) as [Hin|Hout].
  - destruct (list_remove_Some_elem _ _ Hin) as [rest Hrest]. rewrite Hrest.
    do 4 eexists. split; [reflexivity|]. split; [|done]. intros _.
    split_and!; [by apply list_remove_perm| |done].
    apply Forall_forall. intros nd Hnd.
    by apply list_elem_of_filter in Hnd as [? _].
  - do 4 eexists. split; [reflexivity|]. done.
Qed.

(** X21.  Adding, with valid details, a product whose name is new puts it
    last in the catalog and leaves the entries before it as they were:
    the catalog keeps the order in which products were added. *)
Theorem add_product_appends (data : Catalog) (product_name cat : string)
    (pu de se : Z) (fs : gmap string text) :
  product_name ∉ Dict.keys data ->
  product_name <> "" -> cat <> "Select a Category" ->
  pu > 0 -> de > 0 -> se > 0 ->
  (add_product text json_dump data product_name cat pu de se fs).1.1
  = data ++ [(product_name, mkProduct cat pu de se)].
Proof.
  intros Hfresh ? ? ? ? ?. unfold add_product.
  rewrite !bool_decide_eq_true_2 by done. simpl. by apply set_fresh.
Qed.

(** X22.  A product that was just added is found by its category: the
    search for a query that equals the category up to case answers with a
    category match that lists the product with its purchase and selling
    price. *)
Theorem add_then_search (data : Catalog) (product_name cat : string)
    (pu de se : Z) (fs : gmap string text) (q : string) :
  product_name <> "" -> cat <> "Select a Category" ->
  pu > 0 -> de > 0 -> se > 0 ->
  lower cat = lower q ->
  exists rows,
    search lower upper token_set_ratio
      (add_product text json_dump data product_name cat pu de se fs).1.1 q
    = Ok (CategoryMatch (upper q) rows)
    /\ (product_name, pu, se) ∈ rows.
Proof.
  intros ? ? ? ? ? Hq. unfold add_product.
  rewrite !bool_decide_eq_true_2 by done. simpl.
  set (new := mkProduct cat pu de se).
  pose proof (get_Some_elem_of _ _ _ (get_set_eq data product_name new)) as Hin.
  set (data' := Dict.set data product_name new) in *.
  assert (Hm : (product_name, new) ∈ category_matches lower data' q)
    by (apply list_elem_of_filter; done).
  unfold search. destruct data' as [|d rest]; [inversion Hin|].
  destruct (category_matches lower (d :: rest) q) as [|m ms]; [inversion Hm|].
  eexists. split; [reflexivity|].
  apply list_elem_of_fmap. exists (product_name, new). done.
Qed.

End AddDeleteFacts.

(** * The further properties on the sample shop and user store *)

Section MoreSamples.

Import Sample SampleAccounts.

Local Ltac by_computation := apply (bool_decide_unpack _); vm_compute; reflexivity.

Local Abbreviation s_load := (load_data document json_load).
Local Abbreviation s_save := (save_data document JsonText).
Local Abbreviation s_auth := (authenticate_user document json_load sample_hash).
Local Abbreviation s_signup := (signup document json_load JsonText sample_hash).
Local Abbreviation s_admin := (create_default_admin document json_load JsonText sample_hash).
Local Abbreviation s_login := (login document json_load sample_hash).

Lemma sample_round_trip : forall v, json_load (JsonText v) = Parsed v.
Proof. reflexivity. Defined.

Lemma sample_users :
  s_load store USERS_FILE
  = Ok (JObj [("Admin", user_json (sample_hash "1234") "Admin");
              ("ann@shop.example", user_json (sample_hash "tulip") "User")]).
Proof. reflexivity. Defined.

Lemma sample_consistent : consistent shop ["Stationery"; "Kitchen"].
Proof.
  split_and!.
  - apply (bool_decide_unpack _). reflexivity.
  - apply (bool_decide_unpack _). reflexivity.
  - repeat constructor; simpl; lia || by_computation.
Defined.

Lemma save_load_round_trip_witness :
  (forall v, json_load (JsonText v) = Parsed v)
  /\ s_load (s_save (catalog_json shop) PRODUCTS_FILE store) PRODUCTS_FILE
     = Ok (catalog_json shop).
Proof.
  split; [exact sample_round_trip|].
  apply (save_load_round_trip document json_load JsonText sample_round_trip
           store (catalog_json shop) JNull PRODUCTS_FILE).
Defined.

Lemma csv_pages_outcomes_witness :
  exists fs' shown,
    csv_generate_user document CsvText shop "Garden" ["Product Name"] store
    = Ok (fs', shown)
    /\ fs' !! USERS_FILE = store !! USERS_FILE.
Proof.
  destruct (csv_pages_outcomes document CsvText false shop "Garden"
              ["Product Name"] store) as (fs' & shown & Hrun & _ & Hframe).
  exists fs', shown. split; [exact Hrun|]. apply Hframe. done.
Defined.

Lemma authenticate_accepts_exactly_witness :
  s_auth store "ann@shop.example" "tulip"
  = Done (Some (user_json (sample_hash "tulip") "User")).
Proof.
  apply (authenticate_accepts_exactly document json_load sample_hash).
  do 2 eexists. split_and!; [apply sample_users|reflexivity|reflexivity|reflexivity].
Defined.

Lemma signup_then_authenticate_witness :
  ("bob" ∉ ["Admin"; "ann@shop.example"])
  /\ exists fs',
       s_signup store "bob" "rose" "User"
       = Done (fs', (true, "User created successfully!"))
       /\ s_auth fs' "bob" "rose"
          = Done (Some (user_json (sample_hash "rose") "User")).
Proof.
  assert (Hfresh : "bob" ∉ ["Admin"; "ann@shop.example"]) by by_computation.
  split; [exact Hfresh|].
  destruct (signup_then_authenticate document json_load JsonText sample_hash
              sample_round_trip store _ "bob" "rose" "User" sample_users Hfresh)
    as (fs' & Hrun & Hauth & _).
  eauto.
Defined.

Lemma signup_keeps_accounts_witness :
  s_signup store "bob" "rose" "User"
  = Done (s_save (JObj [("Admin", user_json (sample_hash "1234") "Admin");
                        ("ann@shop.example", user_json (sample_hash "tulip") "User");
                        ("bob", user_json (sample_hash "rose") "User")])
            USERS_FILE store,
          (true, "User created successfully!"))
  /\ forall path,
       path <> USERS_FILE ->
       s_save (JObj [("Admin", user_json (sample_hash "1234") "Admin");
                     ("ann@shop.example", user_json (sample_hash "tulip") "User");
                     ("bob", user_json (sample_hash "rose") "User")])
         USERS_FILE store !! path
       = store !! path.
Proof.
  assert (Hrun : s_signup store "bob" "rose" "User"
                 = Done (s_save (JObj [("Admin", user_json (sample_hash "1234") "Admin");
                        ("ann@shop.example", user_json (sample_hash "tulip") "User");
                        ("bob", user_json (sample_hash "rose") "User")])
                           USERS_FILE store,
                         (true, "User created successfully!")))
    by reflexivity.
  split; [exact Hrun|].
  apply (signup_keeps_accounts document json_load JsonText sample_hash
           sample_round_trip _ _ _ _ _ _ Hrun).
Defined.

Lemma default_admin_installed_witness :
  (forall v, json_load (JsonText v) = Parsed v)
  /\ (exists fs',
        s_admin ∅ = Ok fs'
        /\ s_auth fs' "Admin" "1234"
           = Done (Some (user_json (sample_hash "1234") "Admin")))
  /\ s_admin {[USERS_FILE := Undecodable]} = Raise UnicodeDecodeError.
Proof.
  split_and!; [exact sample_round_trip| |].
  - destruct (default_admin_installed document json_load JsonText sample_hash
                sample_round_trip ∅) as [Hloaded _].
    destruct (Hloaded (JObj []) eq_refl)
      as (fs' & members & Hrun & _ & _ & _ & Hauth).
    exists fs'. split; [exact Hrun|]. apply Hauth.
    intros old [= <-]. by_computation.
  - destruct (default_admin_installed document json_load JsonText sample_hash
                sample_round_trip {[USERS_FILE := Undecodable]}) as [_ Hraised].
    apply (Hraised UnicodeDecodeError). reflexivity.
Defined.

Lemma default_admin_keeps_accounts_witness :
  "ann@shop.example" ∈ ["Admin"; "ann@shop.example"]
  /\ exists fs',
       s_admin store = Ok fs'
       /\ s_auth fs' "ann@shop.example" "tulip"
          = s_auth store "ann@shop.example" "tulip".
Proof.
  assert (Hin : "ann@shop.example" ∈ ["Admin"; "ann@shop.example"])
    by by_computation.
  split; [exact Hin|].
  destruct (default_admin_keeps_accounts document json_load JsonText
              sample_hash sample_round_trip store _ sample_users)
    as (fs' & Hrun & Hsame & _).
  exists fs'. split; [exact Hrun|]. apply Hsame. exact Hin.
Defined.

Lemma login_needs_the_password_witness :
  (s_login store fresh_session "ann@shop.example" "daisy").1 = fresh_session
  /\ s_login store fresh_session "ann@shop.example" "tulip"
     = (mkSession true (Some "ann@shop.example") (Some (JStr "User")),
        Done (Success "Welcome, ann@shop.example!")).
Proof.
  destruct (login_needs_the_password document json_load sample_hash store
              fresh_session "ann@shop.example" "tulip") as [_ Hgood].
  split; [reflexivity|].
  eapply Hgood; [apply sample_users|reflexivity|reflexivity|reflexivity].
Defined.

Lemma signup_then_login_witness :
  ("bob" ∉ ["Admin"; "ann@shop.example"])
  /\ exists fs' s',
       s_signup store "bob" "rose" "User"
       = Done (fs', (true, "User created successfully!"))
       /\ s_login fs' fresh_session "bob" "rose"
          = (s', Done (Success "Welcome, bob!"))
       /\ menu_options (role s') = ["All Products"; "CSV Generate"].
Proof.
  assert (Hfresh : "bob" ∉ ["Admin"; "ann@shop.example"]) by by_computation.
  split; [exact Hfresh|].
  destruct (signup_then_login document json_load JsonText sample_hash
              sample_round_trip store _ "bob" "rose" "User" sample_users Hfresh)
    as (fs' & s' & Hrun & Hlogin & _ & _ & Hmenu).
  exists fs', s'. split_and!; [exact Hrun|exact Hlogin|by apply Hmenu].
Defined.

Lemma admin_pages_need_admin_witness :
  Some (JStr "User") <> Some (JStr "Admin")
  /\ dispatch "Add New Product" (Some (JStr "User"))
     ∈ [QueryProductPrice; CsvGenerate; AllProducts; NoPage].
Proof.
  assert (H : Some (JStr "User") <> Some (JStr "Admin")) by done.
  split; [exact H|]. exact (admin_pages_need_admin "Add New Product" _ H).
Defined.

Lemma menu_choice_page_witness :
  "Generate CSV" ∈ menu_options (Some (JStr "Admin"))
  /\ dispatch "Generate CSV" (Some (JStr "Admin")) <> QueryProductPrice.
Proof.
  assert (H : "Generate CSV" ∈ menu_options (Some (JStr "Admin")))
    by (do 4 right; left).
  split; [exact H|]. apply (menu_choice_page _ _ H).
Defined.

Lemma page_sizes_witness :
  (1 <= 3 <= total_pages (length (seq 0 25)))%nat
  /\ (1 <= length (page_rows (seq 0 25) 3) <= page_size)%nat.
Proof.
  assert (H : (1 <= 3 <= total_pages (length (seq 0 25)))%nat)
    by (vm_compute; lia).
  split; [exact H|].
  destruct (page_sizes (seq 0 25) 3) as [Hin _]. apply (Hin H).
Defined.

Lemma user_table_hides_purchase_price_witness :
  hide_purchase_price <$> shop_repriced = hide_purchase_price <$> shop
  /\ all_products shop_repriced "All" 1 = all_products shop "All" 1.
Proof.
  assert (H : hide_purchase_price <$> shop_repriced = hide_purchase_price <$> shop)
    by reflexivity.
  split; [exact H|].
  destruct (user_table_hides_purchase_price shop "All" 1) as (_ & Hsame & _).
  exact (Hsame shop_repriced H).
Defined.

Lemma update_product_replaces_witness :
  ("Red Pen", red_pen) ∈ shop /\ "Red Pen" <> "" /\ category red_pen <> ""
  /\ exists data',
       update_product document JsonText shop "Stationery" "Red Pen" "Attic"
         0 0 0 ∅
       = Ok (data', <[PRODUCTS_FILE := JsonText (catalog_json data')]> ∅,
             Some (Success "Product 'Red Pen' has been updated!"))
       /\ Dict.get data' "Red Pen" = Some (mkProduct "Attic" 0 0 0).
Proof.
  assert (H1 : ("Red Pen", red_pen) ∈ shop) by left.
  assert (H2 : "Red Pen" <> "") by done.
  assert (H3 : category red_pen <> "") by done.
  split_and!; [exact H1|exact H2|exact H3|].
  destruct (update_product_replaces document JsonText shop "Red Pen" "Attic"
              red_pen 0 0 0 ∅ H1 H2 H3) as (data' & Hrun & Hget & _).
  exists data'. split; [exact Hrun|exact Hget].
Defined.

Lemma add_then_delete_category_witness :
  let '(categories1, fs1, shown1) :=
    add_category document JsonText ["Stationery"; "Kitchen"] "Garden" ∅ in
  exists fs2 shown2,
    delete_category document JsonText shop categories1 "Garden" fs1
    = Ok (filter (fun kv => category kv.2 <> "Garden") shop,
          ["Stationery"; "Kitchen"], fs2, shown2).
Proof.
  pose proof (add_then_delete_category document JsonText shop
                ["Stationery"; "Kitchen"] "Garden" ∅) as H.
  destruct (add_category document JsonText ["Stationery"; "Kitchen"] "Garden" ∅)
    as [[categories1 fs1] shown1].
  destruct H as [Hadd _].
  destruct Hadd as (_ & _ & fs2 & shown2 & Hrun & _); [done|by_computation|].
  eauto.
Defined.

Lemma editing_keeps_consistency_witness :
  consistent shop ["Stationery"; "Kitchen"]
  /\ consistent
       (add_product document JsonText shop "Mug" "Kitchen" 9 10 12 ∅).1.1
       ["Stationery"; "Kitchen"].
Proof.
  split; [exact sample_consistent|].
  apply (editing_keeps_consistency document JsonText shop _ sample_consistent).
  by_computation.
Defined.

Lemma update_breaks_consistency_witness :
  consistent shop ["Stationery"; "Kitchen"]
  /\ ("Red Pen", red_pen) ∈ shop
  /\ exists data' fs' shown,
       update_product document JsonText shop "Stationery" "Red Pen" "Stationery"
         5 0 8 ∅
       = Ok (data', fs', Some (Success shown))
       /\ ~ consistent data' ["Stationery"; "Kitchen"].
Proof.
  assert (H1 : ("Red Pen", red_pen) ∈ shop) by left.
  split_and!; [exact sample_consistent|exact H1|].
  apply (update_breaks_consistency document JsonText shop _ "Red Pen"
           "Stationery" red_pen 5 0 8 ∅ H1); [done|done|].
  right. right. left. lia.
Defined.

Lemma format_username_cuts_at_witness :
  contains "@" "bob" = false /\ format_username "bob" = "bob".
Proof.
  assert (H : contains "@" "bob" = false) by reflexivity.
  split; [exact H|].
  destruct (format_username_cuts_at "bob") as (_ & Hsame & _). exact (Hsame H).
Defined.

Lemma delete_category_total_witness :
  "Kitchen" ∈ ["Kitchen"; "Stationery"; "Kitchen"]
  /\ exists data' categories' fs' shown,
       delete_category document JsonText shop
         ["Kitchen"; "Stationery"; "Kitchen"] "Kitchen" ∅
       = Ok (data', categories', fs', shown)
       /\ Forall (fun nd => category nd.2 <> "Kitchen") data'.
Proof.
  assert (H : "Kitchen" ∈ ["Kitchen"; "Stationery"; "Kitchen"]) by left.
  split; [exact H|].
  destruct (delete_category_total document JsonText shop
              ["Kitchen"; "Stationery"; "Kitchen"] "Kitchen" ∅)
    as (data' & categories' & fs' & shown & Hrun & Hin & _).
  destruct (Hin H) as (_ & Hall & _). eauto 10.
Defined.

Lemma add_product_appends_witness :
  ("Mug" ∉ Dict.keys shop)
  /\ (add_product document JsonText shop "Mug" "Kitchen" 9 10 12 ∅).1.1
     = shop ++ [("Mug", mkProduct "Kitchen" 9 10 12)].
Proof.
  assert (H : "Mug" ∉ Dict.keys shop) by by_computation.
  split; [exact H|].
  apply (add_product_appends document JsonText shop "Mug" "Kitchen" 9 10 12 ∅ H);
    done || lia.
Defined.

Lemma add_then_search_witness :
  lower "Kitchen" = lower "KITCHEN"
  /\ exists rows,
       search lower upper prefix_ratio
         (add_product document JsonText shop "Mug" "Kitchen" 9 10 12 ∅).1.1
         "KITCHEN"
       = Ok (CategoryMatch (upper "KITCHEN") rows)
       /\ ("Mug", 9, 12) ∈ rows.
Proof.
  assert (H : lower "Kitchen" = lower "KITCHEN") by reflexivity.
  split; [exact H|].
  apply (add_then_search document JsonText lower upper prefix_ratio shop
           "Mug" "Kitchen" 9 10 12 ∅ "KITCHEN"); done || lia.
Defined.

End MoreSamples.
